(** * The result renderer of [static/script.js]

    A shallow embedding of [displayResult], [formatSuccessResult],
    [formatData] and [formatObject], together with the parts of the
    JavaScript runtime these four functions rely on (property lookup,
    truthiness, template-literal string conversion, [Object.entries],
    object spread, [JSON.stringify] with a two-space gap and the two
    regular-expression replacements used to humanize a key). *)

From Stdlib Require Import String Ascii List Bool Arith Lia ZArith.
From Stdlib Require Import Permutation DecimalString.
Import ListNotations.

Local Open Scope list_scope.
Local Open Scope string_scope.

(** ** Strings

    A JavaScript string is modelled by a Rocq [string]; one [ascii] stands
    for one code unit.  The renderer only inspects code units of the ASCII
    range (underscore, word characters, the characters JSON escapes); every
    other unit is copied through unchanged. *)

Module Str.

Definition dq : string := String (ascii_of_nat 34) EmptyString.
Definition nl : string := String (ascii_of_nat 10) EmptyString.
Definition backslash : string := String (ascii_of_nat 92) EmptyString.

(** An attribute value between double quotes. *)
Definition quoted (s : string) : string := dq ++ s ++ dq.

(** [Array.prototype.join] on already converted elements. *)
Fixpoint join (sep : string) (parts : list string) : string :=
  match parts with
  | [] => EmptyString
  | [p] => p
  | p :: rest => p ++ sep ++ join sep rest
  end.

Fixpoint concat_all (parts : list string) : string :=
  match parts with
  | [] => EmptyString
  | p :: rest => p ++ concat_all rest
  end.

Fixpoint chars (s : string) : list ascii :=
  match s with
  | EmptyString => []
  | String c rest => c :: chars rest
  end.

Fixpoint map_chars (f : ascii -> ascii) (s : string) : string :=
  match s with
  | EmptyString => EmptyString
  | String c rest => String (f c) (map_chars f rest)
  end.

Fixpoint all_chars (p : ascii -> bool) (s : string) : bool :=
  match s with
  | EmptyString => true
  | String c rest => p c && all_chars p rest
  end.

(** [needle] occurs in [hay] as a contiguous run of characters. *)
Definition occurs (needle hay : string) : Prop :=
  exists before after, hay = before ++ needle ++ after.

Fixpoint starts_with (needle hay : string) : bool :=
  match needle, hay with
  | EmptyString, _ => true
  | String _ _, EmptyString => false
  | String a needle', String b hay' => Ascii.eqb a b && starts_with needle' hay'
  end.

(** [String.prototype.includes]. *)
Fixpoint includes (needle hay : string) : bool :=
  starts_with needle hay
  || match hay with
     | EmptyString => false
     | String _ hay' => includes needle hay'
     end.

(** Number of positions of [hay] at which [needle] starts. *)
Fixpoint count_occurrences (needle hay : string) : nat :=
  (if starts_with needle hay then 1 else 0)
  + match hay with
    | EmptyString => 0
    | String _ hay' => count_occurrences needle hay'
    end.

End Str.

(** ** Key humanization

    [key.replace(/_/g, " ").replace(/\b\w/g, (l) => l.toUpperCase())] *)

Module Humanize.

Definition in_range (lo hi : nat) (c : ascii) : bool :=
  ((lo <=? nat_of_ascii c)%nat && (nat_of_ascii c <=? hi)%nat)%bool.

Definition is_lower (c : ascii) : bool := in_range 97 122 c.
Definition is_upper (c : ascii) : bool := in_range 65 90 c.
Definition is_digit (c : ascii) : bool := in_range 48 57 c.
Definition is_underscore (c : ascii) : bool := Ascii.eqb c "_"%char.

(** The class [\w] of a regular expression without the [u] flag:
    [[A-Za-z0-9_]]. *)
Definition is_word_char (c : ascii) : bool :=
  is_lower c || is_upper c || is_digit c || is_underscore c.

(** [l.toUpperCase()] for a one-character string matched by [\w]. *)
Definition toUpperCase (c : ascii) : ascii :=
  if is_lower c then ascii_of_nat (nat_of_ascii c - 32) else c.

(** [.replace(/_/g, " ")] *)
Definition replace_underscores (s : string) : string :=
  Str.map_chars (fun c => if is_underscore c then " "%char else c) s.

(** [.replace(/\b\w/g, (l) => l.toUpperCase())]: a match is a word
    character that stands at the start of the string or right after a
    non-word character.  [prev_word] tells whether the character before
    the current position is a word character. *)
Fixpoint upcase_word_starts (prev_word : bool) (s : string) : string :=
  match s with
  | EmptyString => EmptyString
  | String c rest =>
      String (if is_word_char c && negb prev_word then toUpperCase c else c)
             (upcase_word_starts (is_word_char c) rest)
  end.

Definition formattedKey (key : string) : string :=
  upcase_word_starts false (replace_underscores key).

(** Upper-case the first character only. *)
Definition capitalize_first (s : string) : string :=
  match s with
  | EmptyString => EmptyString
  | String c rest => String (toUpperCase c) rest
  end.

(** An ASCII letter or digit: a word character of the key once its
    underscores have become spaces. *)
Definition is_alnum (c : ascii) : bool :=
  is_lower c || is_upper c || is_digit c.

(** Whether the character before position [i] of [key] is a letter or a
    digit. *)
Definition prev_alnum (key : string) (i : nat) : bool :=
  match i with
  | 0 => false
  | S j =>
      match String.get j key with
      | Some p => is_alnum p
      | None => false
      end
  end.

(** What humanization makes of the character [c] at position [i] of [key]:
    a letter or digit that starts a run of letters and digits is
    upper-cased, an underscore becomes a space, anything else stays. *)
Definition humanized_char (key : string) (i : nat) (c : ascii) : ascii :=
  if is_alnum c && negb (prev_alnum key i) then toUpperCase c
  else if is_underscore c then " "%char
  else c.

(** No character of [s] is an underscore. *)
Definition no_underscore (s : string) : bool :=
  Str.all_chars (fun c => negb (is_underscore c)) s.

End Humanize.

(** ** JSON values and the JavaScript runtime *)

(** What the renderer observes of a JavaScript number. *)
Class JSNumber (number : Type) : Type := {
  (** [Number::toString], as a template literal prints the number *)
  number_toString : number -> string;
  (** false for [Infinity] and [-Infinity], which [JSON.parse] yields for
      literals out of the range of a double *)
  number_isFinite : number -> bool;
  (** false for [0] and [-0] *)
  number_truthy : number -> bool
}.

(** Exceptions the renderer can raise. *)
Inductive exn : Type :=
| TypeError.

Inductive result (A : Type) : Type :=
| Ok (a : A)
| Throw (e : exn).

Arguments Ok {A} a.
Arguments Throw {A} e.

Definition bind {A B : Type} (r : result A) (k : A -> result B) : result B :=
  match r with
  | Ok a => k a
  | Throw e => Throw e
  end.

Notation "x <- e ;; k" := (bind e (fun x => k))
  (at level 61, e at next level, right associativity).

(** The element a result is written to: its class list and its content. *)
Record element : Type := {
  classList : list string;
  innerHTML : string
}.

Section Renderer.

Context {number : Type} {numberOps : JSNumber number}.

(** A parsed JSON value.  The fields of an object are its own properties
    in the order of [Object.entries]; their keys are pairwise distinct, as
    [JSON.parse] builds them. *)
#[warnings="-register-all"] Inductive json : Type :=
| JNull
| JBool (b : bool)
| JNum (n : number)
| JStr (s : string)
| JArray (items : list json)
| JObject (fields : list (string * json)).

(** *** Truthiness and string conversion *)

Definition truthy (v : json) : bool :=
  match v with
  | JNull => false
  | JBool b => b
  | JNum n => number_truthy n
  | JStr s => negb (String.eqb s EmptyString)
  | JArray _ | JObject _ => true
  end.

(** A property read yields [None] for [undefined]. *)
Definition truthy_prop (p : option json) : bool :=
  match p with
  | Some v => truthy v
  | None => false
  end.

(** [`${v}`] *)
Fixpoint toString (v : json) : string :=
  match v with
  | JNull => "null"
  | JBool b => if b then "true" else "false"
  | JNum n => number_toString n
  | JStr s => s
  | JArray items =>
      Str.join ","
        (map (fun x => match x with
                       | JNull => EmptyString
                       | _ => toString x
                       end) items)
  | JObject _ => "[object Object]"
  end.

(** *** Properties *)

Fixpoint lookup (key : string) (fields : list (string * json)) : option json :=
  match fields with
  | [] => None
  | (k, v) :: rest => if String.eqb k key then Some v else lookup key rest
  end.

(** [v.key] for the five names the renderer reads ([status], [success],
    [data], [result], [metadata]); none of them is a property of an
    array, a string, a number or a boolean. *)
Definition getProp (v : json) (key : string) : result (option json) :=
  match v with
  | JNull => Throw TypeError
  | JObject fields => Ok (lookup key fields)
  | _ => Ok None
  end.

(** [delete obj.key] *)
Definition delete (key : string) (fields : list (string * json))
  : list (string * json) :=
  filter (fun kv => negb (String.eqb (fst kv) key)) fields.

Definition index_key (i : nat) : string :=
  NilEmpty.string_of_uint (Nat.to_uint i).

Fixpoint indexed (i : nat) (items : list json) : list (string * json) :=
  match items with
  | [] => []
  | x :: rest => (index_key i, x) :: indexed (S i) rest
  end.

(** The own enumerable properties of a value: the fields of an object,
    the elements of an array and the code units of a string under their
    indices, nothing for the other primitives. *)
Definition ownEntries (v : json) : list (string * json) :=
  match v with
  | JObject fields => fields
  | JArray items => indexed 0 items
  | JStr s =>
      indexed 0 (map (fun c => JStr (String c EmptyString)) (Str.chars s))
  | _ => []
  end.

(** [Object.entries(v)] *)
Definition Object_entries (v : json) : result (list (string * json)) :=
  match v with
  | JNull => Throw TypeError
  | _ => Ok (ownEntries v)
  end.

(** [{ ...v }] *)
Definition spread (v : json) : list (string * json) := ownEntries v.

(** *** [JSON.stringify(v, null, 2)] *)

Definition hex_digit (n : nat) : string :=
  String.substring n 1 "0123456789abcdef".

Definition escape_char (c : ascii) : string :=
  let n := nat_of_ascii c in
  if (n =? 8)%nat then Str.backslash ++ "b"
  else if (n =? 9)%nat then Str.backslash ++ "t"
  else if (n =? 10)%nat then Str.backslash ++ "n"
  else if (n =? 12)%nat then Str.backslash ++ "f"
  else if (n =? 13)%nat then Str.backslash ++ "r"
  else if (n =? 34)%nat then Str.backslash ++ Str.dq
  else if (n =? 92)%nat then Str.backslash ++ Str.backslash
  else if (n <? 32)%nat then
    Str.backslash ++ "u00" ++ hex_digit (n / 16) ++ hex_digit (n mod 16)
  else String c EmptyString.

(** [QuoteJSONString] *)
Definition quote (s : string) : string :=
  Str.dq ++ Str.concat_all (map escape_char (Str.chars s)) ++ Str.dq.

Definition gap : string := "  ".

(** [SerializeJSONProperty] with the current indentation [indent]. *)
Fixpoint stringifyAt (indent : string) (v : json) : string :=
  match v with
  | JNull => "null"
  | JBool b => if b then "true" else "false"
  | JNum n => if number_isFinite n then number_toString n else "null"
  | JStr s => quote s
  | JArray [] => "[]"
  | JArray items =>
      let inner := indent ++ gap in
      "[" ++ Str.nl ++ inner
      ++ Str.join ("," ++ Str.nl ++ inner) (map (stringifyAt inner) items)
      ++ Str.nl ++ indent ++ "]"
  | JObject [] => "{}"
  | JObject fields =>
      let inner := indent ++ gap in
      "{" ++ Str.nl ++ inner
      ++ Str.join ("," ++ Str.nl ++ inner)
           (map (fun kv => quote (fst kv) ++ ": " ++ stringifyAt inner (snd kv))
                fields)
      ++ Str.nl ++ indent ++ "}"
  end.

Definition JSON_stringify (v : json) : string := stringifyAt EmptyString v.

(** *** The renderer *)

(** [typeof v === "object" && v !== null] *)
Definition is_non_null_object (v : json) : bool :=
  match v with
  | JArray _ | JObject _ => true
  | _ => false
  end.

(** One turn of the loop of [formatObject]: what it appends to [html] for
    the entry [[key, value]]. *)
Definition formatEntry (key : string) (value : json) : string :=
  let formattedKey := Humanize.formattedKey key in
  if is_non_null_object value then
    ("<div style=" ++ Str.quoted "margin: 10px 0;" ++ "><strong>"
       ++ formattedKey ++ ":</strong></div>")
    ++ ("<pre style="
          ++ Str.quoted "background: white; padding: 10px; border-radius: 5px;"
          ++ ">" ++ JSON_stringify value ++ "</pre>")
  else
    "<p><strong>" ++ formattedKey ++ ":</strong> " ++ toString value ++ "</p>".

Definition formatObject (obj : json) : result string :=
  entries <- Object_entries obj ;;
  Ok (fold_left (fun html kv => html ++ formatEntry (fst kv) (snd kv))
                entries EmptyString).

Definition card_open : string :=
  "<div class=" ++ Str.quoted "result-card" ++ ">".

Definition card_close : string := "</div>".

(** [data.forEach((item, index) => { ... })] with the accumulator [html]. *)
Fixpoint forEach_card (items : list json) (html : string) : result string :=
  match items with
  | [] => Ok html
  | item :: rest =>
      body <- formatObject item ;;
      forEach_card rest (html ++ card_open ++ body ++ card_close)
  end.

(** The three branches are [Array.isArray(data)], then
    [typeof data === "object"], which holds of [null] too, then the rest. *)
Definition formatData (data : json) : result string :=
  match data with
  | JArray items => forEach_card items EmptyString
  | JNull | JObject _ => formatObject data
  | JBool _ | JNum _ | JStr _ => Ok ("<p>" ++ toString data ++ "</p>")
  end.

Definition success_header : string :=
  "<div style="
    ++ Str.quoted "color: #27ae60; font-weight: 600; margin-bottom: 15px;"
    ++ ">✅ Success</div>".

Definition metadata_section (metadata : json) : string :=
  ("<div style="
     ++ Str.quoted "margin-top: 15px; padding-top: 15px; border-top: 1px solid #ddd;"
     ++ ">")
  ++ "<strong>Metadata:</strong>"
  ++ ("<pre style=" ++ Str.quoted "margin-top: 10px;" ++ ">"
        ++ JSON_stringify metadata ++ "</pre>")
  ++ "</div>".

(** The value of a property known to be truthy. *)
Definition the (p : option json) : json :=
  match p with
  | Some v => v
  | None => JNull
  end.

Definition formatSuccessResult (data : json) : result string :=
  let html := success_header in
  data_data <- getProp data "data" ;;
  html <- (if truthy_prop data_data then
             body <- formatData (the data_data) ;; Ok (html ++ body)
           else
             data_result <- getProp data "result" ;;
             if truthy_prop data_result then
               body <- formatData (the data_result) ;; Ok (html ++ body)
             else
               let dataToShow := spread data in
               let dataToShow := delete "status" dataToShow in
               let dataToShow := delete "success" dataToShow in
               Ok (html ++ "<pre>" ++ JSON_stringify (JObject dataToShow)
                        ++ "</pre>")) ;;
  data_metadata <- getProp data "metadata" ;;
  if truthy_prop data_metadata then
    Ok (html ++ metadata_section (the data_metadata))
  else Ok html.

(** [classList.remove(...)] and [classList.add(...)] *)
Definition classList_remove (tokens : list string) (box : element)
  : element :=
  {| classList :=
       filter (fun c => negb (existsb (String.eqb c) tokens)) (classList box);
     innerHTML := innerHTML box |}.

Definition classList_add (token : string) (box : element) : element :=
  {| classList :=
       if existsb (String.eqb token) (classList box) then classList box
       else (classList box ++ [token])%list;
     innerHTML := innerHTML box |}.

Definition set_innerHTML (html : string) (box : element) : element :=
  {| classList := classList box; innerHTML := html |}.

(** [data.status === "success"] once [data.status] has been read. *)
Definition is_success_string (p : option json) : bool :=
  match p with
  | Some (JStr s) => String.eqb s "success"
  | _ => false
  end.

(** [displayResult(elementId, data, isError)], where [resultBox] is the
    element that [elementId] names.  Both properties of the test are read
    up front: once [data.status] has been read, reading [data.success]
    cannot raise. *)
Definition displayResult (resultBox : element) (data : json)
    (isError : bool) : result element :=
  let resultBox := classList_remove ["loading"; "error"] resultBox in
  if isError then
    let resultBox := classList_add "error" resultBox in
    Ok (set_innerHTML
          ("<p style=" ++ Str.quoted "color: #e74c3c; font-weight: 600;"
             ++ ">❌ Error: " ++ toString data ++ "</p>")
          resultBox)
  else
    data_status <- getProp data "status" ;;
    data_success <- getProp data "success" ;;
    if is_success_string data_status || truthy_prop data_success then
      html <- formatSuccessResult data ;;
      Ok (set_innerHTML html resultBox)
    else
      Ok (set_innerHTML ("<pre>" ++ JSON_stringify data ++ "</pre>") resultBox).

(** *** Vocabulary of the properties *)

Definition is_null (v : json) : bool :=
  match v with
  | JNull => true
  | _ => false
  end.

(** An array one of whose elements is [null]. *)
Definition has_null_item (v : json) : bool :=
  match v with
  | JArray items => existsb is_null items
  | _ => false
  end.

(** The fields [fields] with the value of [key] replaced by [value]. *)
Definition update (key : string) (value : json)
    (fields : list (string * json)) : list (string * json) :=
  map (fun kv => if String.eqb (fst kv) key then (fst kv, value) else kv)
      fields.

(** The test of [displayResult] on an envelope with the fields [env]. *)
Definition success_envelope (env : list (string * json)) : Prop :=
  lookup "status" env = Some (JStr "success")
  \/ exists v, lookup "success" env = Some v /\ truthy v = true.

(** The part of the fragment between the success header and the metadata
    section, for an envelope with the fields [env]. *)
Definition success_body (env : list (string * json)) : result string :=
  if truthy_prop (lookup "data" env) then formatData (the (lookup "data" env))
  else if truthy_prop (lookup "result" env) then
    formatData (the (lookup "result" env))
  else
    Ok ("<pre>"
          ++ JSON_stringify (JObject (delete "success" (delete "status" env)))
          ++ "</pre>").

(** One member of a pretty-printed object whose members are indented by
    [indent]. *)
Definition member (indent : string) (key : string) (value : json) : string :=
  quote key ++ ": " ++ stringifyAt indent value.

End Renderer.

Arguments json number : clear implicits.

(** [`${v}`] of the renderer, under a name that the printing of a number
    does not hide. *)
Abbreviation template_string := toString.

(** Integer-valued numbers, printed in decimal as JavaScript prints an
    integer of magnitude below [10^21]. *)
Module IntegerNumbers.

Definition toString (z : Z) : string := NilZero.string_of_int (Z.to_int z).

#[export] Instance integer_number : JSNumber Z := {
  number_toString := toString;
  number_isFinite := fun _ => true;
  number_truthy := fun z => negb (Z.eqb z 0)
}.

End IntegerNumbers.
Export IntegerNumbers.

(** ** The form handlers

    Every handler ends in the same way: [setLoading], the request, and
    then [displayResult] on the parsed response, inside a [try] whose
    [catch] shows the message of the error. *)

Section Handlers.

Context {number : Type} {numberOps : JSNumber number}.

(** The value that [formatSuccessResult] hands to [formatData], if any. *)
Definition payload (env : list (string * json number)) : option (json number) :=
  if truthy_prop (lookup "data" env) then lookup "data" env
  else if truthy_prop (lookup "result" env) then lookup "result" env
  else None.

(** A boolean or a number. *)
Definition is_flag_or_number (v : json number) : bool :=
  match v with
  | JBool _ | JNum _ => true
  | _ => false
  end.

(** A character of the ASCII range, which is one code unit of the string
    it stands in. *)
Definition is_ascii_char (c : ascii) : bool := (nat_of_ascii c <? 128)%nat.

(** One line per character, labelled with its index from [i] on. *)
Fixpoint char_lines (i : nat) (cs : list ascii) : string :=
  match cs with
  | [] => EmptyString
  | c :: rest =>
      ("<p><strong>" ++ index_key i ++ ":</strong> " ++ String c EmptyString
         ++ "</p>")
      ++ char_lines (S i) rest
  end.

(** [setLoading(elementId)], where [resultBox] is the element that
    [elementId] names. *)
Definition setLoading (resultBox : element) : element :=
  let resultBox := set_innerHTML EmptyString resultBox in
  classList_add "loading" resultBox.

(** How the request of a handler ends: with the parsed body of the
    response, or with the error that [fetch] or [response.json()] rejected
    with, of which the handler reads the message. *)
Inductive response : Type :=
| Parsed (data : json number)
| Rejected (error_message : string).

(** [try { ...; displayResult(id, data); }
     catch (error) { displayResult(id, error.message, true); }]
    where [message] gives the message of an exception of the renderer.
    When [displayResult] raises it has removed the two classes from the
    element and has not yet written its content. *)
Definition try_displayResult (message : exn -> string) (resultBox : element)
    (r : response) : result element :=
  match r with
  | Parsed data =>
      match displayResult resultBox data false with
      | Ok shown => Ok shown
      | Throw error =>
          displayResult (classList_remove ["loading"; "error"] resultBox)
                        (JStr (message error)) true
      end
  | Rejected error_message => displayResult resultBox (JStr error_message) true
  end.

(** [getSkiConditions()], from the element [weather-ski-result] and the
    end of the request to the element as the handler leaves it. *)
Definition getSkiConditions (message : exn -> string) (resultBox : element)
    (r : response) : result element :=
  let resultBox := setLoading resultBox in
  try_displayResult message resultBox r.

End Handlers.

Arguments response number : clear implicits.

(** ** Chat messages: [formatMarkdown] *)

Module Markdown.

Definition is_star (c : ascii) : bool := Ascii.eqb c "*"%char.

Definition is_newline (c : ascii) : bool := Ascii.eqb c (ascii_of_nat 10).

(** The longest star-free prefix of [s], as [[^\*]+] consumes it, and the
    rest of [s]. *)
Fixpoint span_non_star (s : string) : string * string :=
  match s with
  | EmptyString => (EmptyString, EmptyString)
  | String c rest =>
      if is_star c then (EmptyString, s)
      else let (run, tail) := span_non_star rest in (String c run, tail)
  end.

(** A match of [/\*\*([^\*]+)\*\*/] at the start of [s]: the captured
    group.  The group is the whole star-free run after the two stars; a
    shorter one would have to be followed by a star where a character of
    the run stands. *)
Definition match_bold (s : string) : option string :=
  match s with
  | String a (String b rest) =>
      if is_star a && is_star b then
        match span_non_star rest with
        | (String r run, String c (String d _)) =>
            if is_star c && is_star d then Some (String r run) else None
        | _ => None
        end
      else None
  | _ => None
  end.

(** [text.replace(/\*\*([^\*]+)\*\*/g, "<strong>$1</strong>")]: the text is
    scanned from left to right; at a match the replacement is written and
    the scan goes on behind the match, elsewhere the character is copied.
    [skip] counts the characters of a match still to pass over. *)
Fixpoint replace_bold (skip : nat) (s : string) : string :=
  match s with
  | EmptyString => EmptyString
  | String c rest =>
      match skip with
      | S k => replace_bold k rest
      | 0 =>
          match match_bold s with
          | Some run =>
              "<strong>" ++ run ++ "</strong>"
              ++ replace_bold (String.length run + 3) rest
          | None => String c (replace_bold 0 rest)
          end
      end
  end.

(** [formatted.replace(/\n/g, "<br>")] *)
Fixpoint replace_newlines (s : string) : string :=
  match s with
  | EmptyString => EmptyString
  | String c rest =>
      if is_newline c then "<br>" ++ replace_newlines rest
      else String c (replace_newlines rest)
  end.

Definition formatMarkdown (text : string) : string :=
  let formatted := replace_bold 0 text in
  let formatted := replace_newlines formatted in
  formatted.

(** Whether some character of [s] satisfies [p]. *)
Fixpoint some_char (p : ascii -> bool) (s : string) : bool :=
  match s with
  | EmptyString => false
  | String c rest => p c || some_char p rest
  end.

End Markdown.

(** ** The chat: [addChatMessage] and [sendChatMessage]

    Of the page the chat functions change, the model keeps the message
    elements that [addChatMessage] appends to [chat-messages] and the
    array [chatHistory]; the typing indicator, the scroll position and the
    input field, which touch neither, are left out. *)

Section Chat.

Context {number : Type} {numberOps : JSNumber number}.

(** A message element: its [className] and its [innerHTML]. *)
Record messageDiv : Type := {
  className : string;
  messageHTML : string
}.

Record chat : Type := {
  messages : list messageDiv;
  chatHistory : list (string * option (json number))
}.

(** [formatMarkdown(content)] for a [content] that need not be a string:
    only a string has the method [replace]. *)
Definition formatMarkdown_content (content : option (json number))
  : result string :=
  match content with
  | Some (JStr text) => Ok (Markdown.formatMarkdown text)
  | _ => Throw TypeError
  end.

(** [`${v}`] for any value of a response.  The conversion of an object
    calls its method [toString]; a parsed object that has a key [toString]
    of its own holds a value there that cannot be called, and [valueOf]
    does not give a primitive either, so the conversion raises.  An array
    joins the conversions of its elements, [null] giving the empty
    string. *)
Fixpoint ToString (v : json number) : result string :=
  match v with
  | JNull => Ok "null"
  | JBool b => Ok (if b then "true" else "false")
  | JNum n => Ok (number_toString n)
  | JStr s => Ok s
  | JArray items =>
      parts <- (fix each (l : list (json number)) : result (list string) :=
                  match l with
                  | [] => Ok []
                  | x :: rest =>
                      part <- match x with
                              | JNull => Ok EmptyString
                              | _ => ToString x
                              end ;;
                      parts <- each rest ;;
                      Ok (part :: parts)
                  end) items ;;
      Ok (Str.join "," parts)
  | JObject fields =>
      match lookup "toString" fields with
      | Some _ => Throw TypeError
      | None => Ok "[object Object]"
      end
  end.

(** Whether [`${v}`] returns. *)
Definition converts (v : json number) : bool :=
  match ToString v with
  | Ok _ => true
  | Throw _ => false
  end.

(** [addChatMessage(role, content, functionCalled)]; an absent argument is
    [None]. *)
Definition addChatMessage (role : string) (content : option (json number))
    (functionCalled : option (json number)) (c : chat) : result chat :=
  let html :=
    "<div class=" ++ Str.quoted "message-label" ++ ">"
      ++ (if String.eqb role "user" then "You" else "AI Assistant")
      ++ "</div>" in
  html <- (if truthy_prop functionCalled then
             used <- ToString (the functionCalled) ;;
             Ok (html ++ "<div class=" ++ Str.quoted "function-call-badge"
                      ++ ">🔧 Used: " ++ used ++ "</div>")
           else Ok html) ;;
  formattedContent <- formatMarkdown_content content ;;
  let html :=
    html ++ "<div class=" ++ Str.quoted "message-content" ++ ">"
         ++ formattedContent ++ "</div>" in
  Ok {| messages :=
          (messages c
             ++ [{| className := "chat-message " ++ role; messageHTML := html |}])%list;
        chatHistory := (chatHistory c ++ [(role, content)])%list |}.

(** The [try] block of [sendChatMessage] from the parsed response on.
    [error], [response] and [function_called] are, like the names the
    renderer reads, properties of objects only. *)
Definition show_reply (data : json number) (c : chat) : result chat :=
  data_error <- getProp data "error" ;;
  if truthy_prop data_error then
    error_text <- ToString (the data_error) ;;
    addChatMessage "system" (Some (JStr ("Error: " ++ error_text))) None c
  else
    data_response <- getProp data "response" ;;
    data_function_called <- getProp data "function_called" ;;
    addChatMessage "assistant" data_response data_function_called c.

(** [sendChatMessage()], where [message] is the trimmed text of the input
    field, [r] is how the request ends and [error_text] gives the message
    of an exception raised in the [try] block. *)
Definition sendChatMessage (error_text : exn -> string) (message : string)
    (r : response number) (c : chat) : result chat :=
  if String.eqb message EmptyString then Ok c
  else
    c <- addChatMessage "user" (Some (JStr message)) None c ;;
    match r with
    | Parsed data =>
        match show_reply data c with
        | Ok c => Ok c
        | Throw error =>
            addChatMessage "system"
              (Some (JStr ("Error: " ++ error_text error))) None c
        end
    | Rejected error_message =>
        addChatMessage "system" (Some (JStr ("Error: " ++ error_message))) None c
    end.

(** Whether a response is answered in the name of the assistant: an object
    without a truthy [error] whose [response] is a string and whose
    [function_called], if truthy, converts to a string. *)
Definition is_answer (r : response number) : bool :=
  match r with
  | Parsed (JObject env) =>
      negb (truthy_prop (lookup "error" env))
      && match lookup "response" env with
         | Some (JStr _) => true
         | _ => false
         end
      && (negb (truthy_prop (lookup "function_called" env))
          || converts (the (lookup "function_called" env)))
  | _ => false
  end.

End Chat.

Arguments chat number : clear implicits.

(** ** Tab navigation: [showTab]

    The document is the list of its elements in document order; of an
    element only the [id] and the class list matter here. *)

Module Tabs.

Record node : Type := {
  node_id : string;
  node_classes : list string
}.

Definition has_class (c : string) (n : node) : bool :=
  existsb (String.eqb c) (node_classes n).

(** [n.classList.remove(c)] *)
Definition remove_class (c : string) (n : node) : node :=
  {| node_id := node_id n;
     node_classes := filter (fun x => negb (String.eqb x c)) (node_classes n) |}.

(** [n.classList.add(c)] *)
Definition add_class (c : string) (n : node) : node :=
  {| node_id := node_id n;
     node_classes :=
       if has_class c n then node_classes n else (node_classes n ++ [c])%list |}.

(** What [document.querySelectorAll("." + cls).forEach((x) =>
    x.classList.remove("active"))] does to one element. *)
Definition deactivate (cls : string) (n : node) : node :=
  if has_class cls n then remove_class "active" n else n.

Definition deactivate_all (cls : string) (doc : list node) : list node :=
  map (deactivate cls) doc.

(** [document.getElementById(id)]: the position of the first element with
    that [id]; an element without [id] has the empty one, which is never
    found. *)
Fixpoint getElementById (id : string) (doc : list node) : option nat :=
  match doc with
  | [] => None
  | n :: rest =>
      if negb (String.eqb id EmptyString) && String.eqb (node_id n) id then Some 0
      else option_map S (getElementById id rest)
  end.

(** The document with [f] applied to the element at position [i]. *)
Fixpoint update_at (i : nat) (f : node -> node) (doc : list node) : list node :=
  match doc, i with
  | [], _ => []
  | n :: rest, 0 => f n :: rest
  | n :: rest, S j => n :: update_at j f rest
  end.

(** [showTab(tabName)].  [event] is the global [event] that the last line
    reads: [None] when no event is being handled, [Some target] when
    [event.target] is the element at position [target] of the document. *)
Definition showTab (tabName : string) (event : option nat) (doc : list node)
  : result (list node) :=
  let doc := deactivate_all "tab-content" doc in
  let doc := deactivate_all "tab-button" doc in
  match getElementById tabName doc with
  | None => Throw TypeError
  | Some tab =>
      let doc := update_at tab (add_class "active") doc in
      match event with
      | None => Throw TypeError
      | Some target => Ok (update_at target (add_class "active") doc)
      end
  end.

(** Whether the element at position [i] has the class [c]. *)
Definition class_at (c : string) (i : nat) (doc : list node) : bool :=
  match nth_error doc i with
  | Some n => has_class c n
  | None => false
  end.

End Tabs.

(** Concrete envelopes, over integer-valued numbers. *)
Module Scenarios.

Definition box : element :=
  {| classList := ["result-box"; "loading"]; innerHTML := EmptyString |}.

Definition shown (html : string) : element :=
  {| classList := ["result-box"]; innerHTML := html |}.

(** [{status: "success", data: {city: "Beirut", year: 1920}}] *)
Definition scenarioA : list (string * json Z) :=
  [("status", JStr "success");
   ("data", JObject [("city", JStr "Beirut"); ("year", JNum 1920%Z)])].

(** [{status: "success", data: [{city: "Beirut"}, {city: "Tripoli"}]}] *)
Definition scenarioB : list (string * json Z) :=
  [("status", JStr "success");
   ("data", JArray [JObject [("city", JStr "Beirut")];
                    JObject [("city", JStr "Tripoli")]])].

(** [{success: true, result: {routes: [1, 2]}, metadata: {count: 3}}] *)
Definition scenarioC : list (string * json Z) :=
  [("success", JBool true);
   ("result", JObject [("routes", JArray [JNum 1%Z; JNum 2%Z])]);
   ("metadata", JObject [("count", JNum 3%Z)])].

(** [{weird_field: "x"}] *)
Definition scenarioD : list (string * json Z) :=
  [("weird_field", JStr "x")].

(** [{status: "success", data: {city: "Beirut"}, result: "unused"}] *)
Definition data_and_result : list (string * json Z) :=
  [("status", JStr "success");
   ("data", JObject [("city", JStr "Beirut")]);
   ("result", JStr "unused")].

(** [{status: "success", data: [null]}] *)
Definition null_item : list (string * json Z) :=
  [("status", JStr "success"); ("data", JArray [JNull])].

(** [{status: "success", data: false, result: "x"}] *)
Definition falsy_data : list (string * json Z) :=
  [("status", JStr "success"); ("data", JBool false); ("result", JStr "x")].

(** [{metadata: {count: 3}, status: "success", data: "ok"}] *)
Definition metadata_first : list (string * json Z) :=
  [("metadata", JObject [("count", JNum 3%Z)]);
   ("status", JStr "success");
   ("data", JStr "ok")].

(** [{success: true, data: "x", metadata: null}] *)
Definition null_metadata : list (string * json Z) :=
  [("success", JBool true); ("data", JStr "x"); ("metadata", JNull)].

(** [{metadata: {count: 3}}] *)
Definition metadata_only : list (string * json Z) :=
  [("metadata", JObject [("count", JNum 3%Z)])].

(** [{success: true, metadata: {count: 3}, note: "n"}] *)
Definition metadata_no_body : list (string * json Z) :=
  [("success", JBool true);
   ("metadata", JObject [("count", JNum 3%Z)]);
   ("note", JStr "n")].

(** [{success: true, metadata: null}] *)
Definition null_metadata_no_body : list (string * json Z) :=
  [("success", JBool true); ("metadata", JNull)].

(** [{success: "yes", data: "ok"}] *)
Definition string_success : list (string * json Z) :=
  [("success", JStr "yes"); ("data", JStr "ok")].

End Scenarios.

(** Further concrete inputs. *)
Module MoreScenarios.

(** [{success: true, data: 0, result: [{city: "Beirut"}]}] *)
Definition zero_data : list (string * json Z) :=
  [("success", JBool true);
   ("data", JNum 0%Z);
   ("result", JArray [JObject [("city", JStr "Beirut")]])].

(** [[null, 1]] *)
Definition bare_array : json Z := JArray [JNull; JNum 1%Z].

(** Two buttons and two panes, the first pane shown. *)
Definition two_tabs : list Tabs.node :=
  [ {| Tabs.node_id := EmptyString;
       Tabs.node_classes := ["tab-button"; "active"] |};
    {| Tabs.node_id := EmptyString; Tabs.node_classes := ["tab-button"] |};
    {| Tabs.node_id := "weather";
       Tabs.node_classes := ["tab-content"; "active"] |};
    {| Tabs.node_id := "chat"; Tabs.node_classes := ["tab-content"] |} ].

(** The same after a click on the second button for the pane [chat]. *)
Definition chat_shown : list Tabs.node :=
  [ {| Tabs.node_id := EmptyString; Tabs.node_classes := ["tab-button"] |};
    {| Tabs.node_id := EmptyString;
       Tabs.node_classes := ["tab-button"; "active"] |};
    {| Tabs.node_id := "weather"; Tabs.node_classes := ["tab-content"] |};
    {| Tabs.node_id := "chat";
       Tabs.node_classes := ["tab-content"; "active"] |} ].

(** A chat without messages. *)
Definition empty_chat : chat Z := {| messages := []; chatHistory := [] |}.

(** [{response: "Hi **there**", function_called: "get_weather"}] *)
Definition answer : json Z :=
  JObject [("response", JStr "Hi **there**");
           ("function_called", JStr "get_weather")].

End MoreScenarios.

Example formattedKey_min_intensity :
  Humanize.formattedKey "min_intensity" = "Min Intensity".
Proof. reflexivity. Qed.

Example formattedKey_origin : Humanize.formattedKey "origin" = "Origin".
Proof. reflexivity. Qed.

Example formattedKey_two_words :
  Humanize.formattedKey "first name" = "First Name".
Proof. reflexivity. Qed.

(** * Properties *)

(** ** Strings *)

Lemma append_nil_r (s : string) : s ++ EmptyString = s.
Proof. induction s as [|c s IH]; simpl; [reflexivity | now rewrite IH]. Qed.

Lemma append_assoc (a b c : string) : (a ++ b) ++ c = a ++ b ++ c.
Proof. induction a as [|x a IH]; simpl; [reflexivity | now rewrite IH]. Qed.

Lemma occurs_refl (s : string) : Str.occurs s s.
Proof. exists EmptyString, EmptyString. simpl. now rewrite append_nil_r. Qed.

Lemma occurs_append_l (n a b : string) : Str.occurs n a -> Str.occurs n (a ++ b).
Proof.
  intros (p & q & ->). exists p, (q ++ b).
  now rewrite !append_assoc.
Qed.

Lemma occurs_append_r (n a b : string) : Str.occurs n b -> Str.occurs n (a ++ b).
Proof.
  intros (p & q & ->). exists (a ++ p), q.
  now rewrite !append_assoc.
Qed.

Lemma starts_with_spec (needle hay : string) :
  Str.starts_with needle hay = true <-> exists rest, hay = needle ++ rest.
Proof.
  revert hay. induction needle as [|a needle IH]; intros hay; simpl.
  - split; [intros _; now exists hay | reflexivity].
  - destruct hay as [|b hay].
    + split; [discriminate | intros (rest & E); discriminate E].
    + rewrite andb_true_iff, Ascii.eqb_eq, IH. split.
      * intros (-> & rest & ->). now exists rest.
      * intros (rest & E). injection E as -> ->. split; [reflexivity | now exists rest].
Qed.

Lemma includes_spec (needle hay : string) :
  Str.includes needle hay = true <-> Str.occurs needle hay.
Proof.
  induction hay as [|b hay IH].
  - simpl. rewrite orb_false_r, starts_with_spec. split.
    + intros (rest & E). now exists EmptyString, rest.
    + intros (p & q & E). destruct p; [now exists q | discriminate E].
  - cbn [Str.includes]. rewrite orb_true_iff, starts_with_spec, IH. split.
    + intros [(rest & E) | (p & q & ->)].
      * now exists EmptyString, rest.
      * now exists (String b p), q.
    + intros (p & q & E). destruct p as [|x p].
      * left. now exists q.
      * right. injection E as -> ->. now exists p, q.
Qed.

Lemma concat_all_app (xs ys : list string) :
  Str.concat_all (xs ++ ys)%list = Str.concat_all xs ++ Str.concat_all ys.
Proof.
  induction xs as [|x xs IH]; simpl; [reflexivity|].
  now rewrite IH, append_assoc.
Qed.

(** Every part of a joined list occurs in the result. *)
Lemma occurs_join (sep part : string) (parts : list string) :
  In part parts -> Str.occurs part (Str.join sep parts).
Proof.
  induction parts as [|p parts IH]; [intros []|].
  intros [-> | Hin].
  - destruct parts; simpl; [apply occurs_refl|].
    apply occurs_append_l, occurs_refl.
  - destruct parts as [|p' parts]; [destruct Hin|].
    change (Str.join sep (p :: p' :: parts))
      with (p ++ sep ++ Str.join sep (p' :: parts)).
    now apply occurs_append_r, occurs_append_r, IH.
Qed.

(** ** Key humanization *)

Module HumanizeFacts.
Import Humanize.

Lemma underscore_not_alnum (c : ascii) :
  is_underscore c = true -> is_alnum c = false.
Proof.
  unfold is_underscore. rewrite Ascii.eqb_eq. intros ->. reflexivity.
Qed.

Lemma word_char_after_replace (c : ascii) :
  is_word_char (if is_underscore c then " "%char else c) = is_alnum c.
Proof.
  destruct (is_underscore c) eqn:U.
  - now rewrite (underscore_not_alnum c U).
  - unfold is_word_char, is_alnum. now rewrite U, orb_false_r.
Qed.

Lemma upcase_get (prev : bool) (s : string) (i : nat) :
  String.get i (upcase_word_starts prev (replace_underscores s))
  = option_map
      (fun c =>
         if is_alnum c
            && negb (match i with 0 => prev | S _ => prev_alnum s i end)
         then toUpperCase c
         else if is_underscore c then " "%char else c)
      (String.get i s).
Proof.
  revert prev i. induction s as [|c s IH]; intros prev i.
  - destruct i; reflexivity.
  - destruct i as [|j].
    + cbn [replace_underscores Str.map_chars upcase_word_starts String.get option_map].
      rewrite word_char_after_replace.
      destruct (is_alnum c) eqn:A; cbn [andb]; [|reflexivity].
      destruct (is_underscore c) eqn:U; [|reflexivity].
      now rewrite (underscore_not_alnum c U) in A.
    + cbn [replace_underscores Str.map_chars upcase_word_starts].
      change (String.get (S j) (String ?a ?r)) with (String.get j r).
      fold (replace_underscores s).
      rewrite word_char_after_replace, IH.
      destruct j as [|k]; reflexivity.
Qed.

Lemma replace_underscores_alnum (s : string) :
  Str.all_chars is_alnum s = true -> replace_underscores s = s.
Proof.
  induction s as [|c s IH]; [reflexivity|].
  cbn [Str.all_chars]. rewrite andb_true_iff. intros [A R].
  cbn [replace_underscores Str.map_chars]. fold (replace_underscores s).
  rewrite (IH R).
  destruct (is_underscore c) eqn:U; [|reflexivity].
  now rewrite (underscore_not_alnum c U) in A.
Qed.

Lemma alnum_is_word_char (c : ascii) : is_alnum c = true -> is_word_char c = true.
Proof. unfold is_word_char, is_alnum. intros ->. reflexivity. Qed.

Lemma upcase_inside_word (s : string) :
  Str.all_chars is_alnum s = true -> upcase_word_starts true s = s.
Proof.
  induction s as [|c s IH]; [reflexivity|].
  cbn [Str.all_chars]. rewrite andb_true_iff. intros [A R].
  cbn [upcase_word_starts].
  rewrite (alnum_is_word_char c A), andb_false_r, (IH R). reflexivity.
Qed.

End HumanizeFacts.

(** C5 (as amended).  Humanization maps the key character by character:
    every underscore becomes a space, every letter or digit that starts a
    maximal run of ASCII letters and digits is upper-cased, and all other
    characters are kept, so that [min_intensity] gives [Min Intensity] and
    [origin] gives [Origin]; for a key made only of ASCII letters and digits
    the result is the key with its first character upper-cased. *)
Theorem formattedKey_spec :
  (forall key i,
      String.get i (Humanize.formattedKey key)
      = option_map (Humanize.humanized_char key i) (String.get i key))
  /\ Humanize.formattedKey "min_intensity" = "Min Intensity"
  /\ Humanize.formattedKey "origin" = "Origin"
  /\ (forall key,
         Str.all_chars Humanize.is_alnum key = true ->
         Humanize.formattedKey key = Humanize.capitalize_first key).
Proof.
  repeat split.
  - intros key i. unfold Humanize.formattedKey.
    rewrite HumanizeFacts.upcase_get.
    unfold Humanize.humanized_char.
    destruct i; reflexivity.
  - intros key H. unfold Humanize.formattedKey.
    rewrite (HumanizeFacts.replace_underscores_alnum key H).
    destruct key as [|c key]; [reflexivity|].
    cbn [Str.all_chars] in H. apply andb_true_iff in H as [A R].
    cbn [Humanize.upcase_word_starts Humanize.capitalize_first].
    rewrite (HumanizeFacts.alnum_is_word_char c A), (HumanizeFacts.upcase_inside_word key R).
    reflexivity.
Qed.

Lemma formattedKey_spec_witness :
  Str.all_chars Humanize.is_alnum "route2" = true
  /\ Humanize.formattedKey "route2" = Humanize.capitalize_first "route2".
Proof.
  split; [reflexivity|].
  apply (proj2 (proj2 (proj2 formattedKey_spec)) "route2"). reflexivity.
Defined.

(** C5 as stated fails: a key without underscores can hold several words,
    and each of them is capitalized. *)
Lemma formattedKey_not_only_first_letter :
  Str.all_chars (fun c => negb (Humanize.is_underscore c)) "first name" = true
  /\ Humanize.formattedKey "first name" = "First Name"
  /\ Humanize.capitalize_first "first name" = "First name"
  /\ Humanize.formattedKey "first name" <> Humanize.capitalize_first "first name".
Proof.
  repeat split. discriminate.
Qed.

(** ** The renderer *)

Section RendererFacts.

Context {number : Type} {numberOps : JSNumber number}.

Abbreviation json := (json number).
Abbreviation fields := (list (string * json)).

(** *** Properties and envelopes *)

Lemma lookup_In (key : string) (env : fields) (v : json) :
  lookup key env = Some v -> In (key, v) env.
Proof.
  induction env as [|[k x] env IH]; simpl; [discriminate|].
  destruct (String.eqb_spec k key) as [->|].
  - intros [= ->]. now left.
  - intros E. right. now apply IH.
Qed.

Lemma lookup_update_other (key k : string) (value : json) (env : fields) :
  k <> key -> lookup k (update key value env) = lookup k env.
Proof.
  intros Hk. induction env as [|[k' x] env IH]; [reflexivity|].
  cbn [update map fst]. fold (update key value env).
  destruct (String.eqb_spec k' key) as [->|]; cbn [lookup].
  - destruct (String.eqb_spec key k) as [E|]; [now elim Hk | exact IH].
  - destruct (String.eqb k' k); [reflexivity | exact IH].
Qed.

Lemma In_lookup (key : string) (env : fields) (v : json) :
  NoDup (map fst env) -> In (key, v) env -> lookup key env = Some v.
Proof.
  induction env as [|[k x] env IH]; [intros _ []|].
  cbn [map fst]. intros ND Hin. inversion ND as [|? ? Hk ND']; subst.
  cbn [lookup]. destruct Hin as [[= -> ->] | Hin].
  - now rewrite String.eqb_refl.
  - destruct (String.eqb_spec k key) as [->|]; [|now apply IH].
    elim Hk. apply in_map_iff. now exists (key, v).
Qed.

(** With distinct keys a property does not depend on where its field
    stands in the object. *)
Lemma lookup_Permutation (key : string) (env env' : fields) :
  NoDup (map fst env) -> Permutation env env' ->
  lookup key env' = lookup key env.
Proof.
  intros ND P.
  assert (ND' : NoDup (map fst env')).
  { eapply Permutation_NoDup; [|exact ND]. now apply Permutation_map. }
  destruct (lookup key env) as [v|] eqn:E.
  - apply In_lookup; [exact ND'|].
    eapply Permutation_in; [exact P|]. now apply lookup_In.
  - destruct (lookup key env') as [v'|] eqn:E'; [|reflexivity].
    apply lookup_In in E'.
    apply (Permutation_in _ (Permutation_sym P)) in E'.
    apply (In_lookup _ _ _ ND) in E'. congruence.
Qed.

Lemma In_delete (key k : string) (v : json) (env : fields) :
  In (k, v) (delete key env) <-> In (k, v) env /\ k <> key.
Proof.
  unfold delete. rewrite filter_In. cbn [fst].
  rewrite negb_true_iff, String.eqb_neq. tauto.
Qed.

(** *** [JSON.stringify] *)

Lemma stringifyAt_object (indent : string) (env : fields) :
  env <> [] ->
  stringifyAt indent (JObject env)
  = "{" ++ Str.nl ++ (indent ++ gap)
    ++ Str.join ("," ++ Str.nl ++ indent ++ gap)
         (map (fun kv => member (indent ++ gap) (fst kv) (snd kv)) env)
    ++ Str.nl ++ indent ++ "}".
Proof. destruct env; [congruence | reflexivity]. Qed.

(** Every field of an object is printed, key and value, one level deeper. *)
Lemma occurs_member (indent key : string) (value : json) (env : fields) :
  In (key, value) env ->
  Str.occurs (member (indent ++ gap) key value) (stringifyAt indent (JObject env)).
Proof.
  intros Hin.
  rewrite stringifyAt_object by (intros ->; destruct Hin).
  apply occurs_append_r, occurs_append_r, occurs_append_r, occurs_append_l.
  apply occurs_join.
  apply in_map_iff. now exists (key, value).
Qed.

(** *** [formatObject] *)

Lemma fold_left_append (f : string * json -> string) (env : fields) (html : string) :
  fold_left (fun html kv => html ++ f kv) env html
  = html ++ Str.concat_all (map f env).
Proof.
  revert html. induction env as [|kv env IH]; intros html; simpl.
  - now rewrite append_nil_r.
  - now rewrite IH, append_assoc.
Qed.

(** The loop of [formatObject] appends one piece per entry, in order. *)
Lemma formatObject_entries (obj : json) (entries : fields) :
  Object_entries obj = Ok entries ->
  formatObject obj
  = Ok (Str.concat_all (map (fun kv => formatEntry (fst kv) (snd kv)) entries)).
Proof.
  intros E. unfold formatObject. rewrite E. cbn [bind].
  now rewrite fold_left_append.
Qed.

Lemma formatObject_fields (env : fields) :
  formatObject (JObject env)
  = Ok (Str.concat_all (map (fun kv => formatEntry (fst kv) (snd kv)) env)).
Proof. now apply formatObject_entries. Qed.

(** The rendering of an object is the rendering of the fields before an
    entry, then that entry, then the fields after it. *)
Lemma formatObject_split (before after : fields) (key : string) (value : json)
    (html_before html_after : string) :
  formatObject (JObject before) = Ok html_before ->
  formatObject (JObject after) = Ok html_after ->
  formatObject (JObject (before ++ (key, value) :: after)%list)
  = Ok (html_before ++ formatEntry key value ++ html_after).
Proof.
  rewrite !formatObject_fields. intros [= <-] [= <-].
  rewrite map_app, concat_all_app. reflexivity.
Qed.

(** [formatObject] raises on [null] and on nothing else. *)
Lemma formatObject_throws_iff (obj : json) (e : exn) :
  formatObject obj = Throw e <-> obj = JNull.
Proof.
  split.
  - unfold formatObject.
    destruct obj; cbn [Object_entries bind]; try discriminate. reflexivity.
  - intros ->. destruct e. reflexivity.
Qed.

Lemma formatObject_returns (obj : json) :
  obj <> JNull -> exists html, formatObject obj = Ok html.
Proof.
  intros H. destruct (formatObject obj) as [html|e] eqn:E; [now exists html|].
  apply formatObject_throws_iff in E. contradiction.
Qed.

(** *** [formatData] *)

Lemma is_null_true (v : json) : is_null v = true <-> v = JNull.
Proof. destruct v; simpl; split; congruence. Qed.

(** The loop over an array without [null] appends one card per element. *)
Lemma forEach_card_returns (items : list json) (html : string) :
  existsb is_null items = false ->
  exists bodies,
    Forall2 (fun item body => formatObject item = Ok body) items bodies
    /\ forEach_card items html
       = Ok (html ++ Str.concat_all
                       (map (fun body => card_open ++ body ++ card_close) bodies)).
Proof.
  revert html. induction items as [|item items IH]; intros html H.
  - exists []. split; [constructor|]. simpl. now rewrite append_nil_r.
  - cbn [existsb] in H. apply orb_false_iff in H as [Hn Hrest].
    destruct (formatObject_returns item) as [body Hbody].
    { intros ->. discriminate Hn. }
    destruct (IH (html ++ card_open ++ body ++ card_close) Hrest)
      as (bodies & HF & E).
    exists (body :: bodies). split; [now constructor|].
    cbn [forEach_card]. rewrite Hbody. cbn [bind map Str.concat_all].
    rewrite E, !append_assoc. reflexivity.
Qed.

Lemma forEach_card_throws (items : list json) (html : string) :
  existsb is_null items = true -> forEach_card items html = Throw TypeError.
Proof.
  revert html. induction items as [|item items IH]; intros html H;
    [discriminate H|].
  cbn [forEach_card].
  destruct (formatObject item) as [body|e] eqn:E.
  - cbn [bind]. apply IH. cbn [existsb] in H.
    apply orb_true_iff in H as [Hn | Hrest]; [|exact Hrest].
    apply is_null_true in Hn. subst item. discriminate E.
  - destruct e. reflexivity.
Qed.

(** [formatData] raises exactly on [null] and on an array that holds a
    [null]; on every other value it returns. *)
Lemma formatData_throws_iff (data : json) (e : exn) :
  formatData data = Throw e <-> data = JNull \/ has_null_item data = true.
Proof.
  destruct e. split.
  - destruct data as [| | | |items|env]; cbn [formatData has_null_item];
      try discriminate.
    + now left.
    + intros E. right.
      destruct (existsb is_null items) eqn:H; [reflexivity|].
      destruct (forEach_card_returns items EmptyString H) as (? & _ & E').
      congruence.
  - intros [-> | H]; [reflexivity|].
    destruct data; try discriminate H.
    now apply forEach_card_throws.
Qed.

(** *** [formatSuccessResult] and [displayResult] *)

(** The fragment is the success header, the body, and the metadata section
    when the [metadata] property is truthy. *)
Lemma formatSuccessResult_split (env : fields) :
  formatSuccessResult (JObject env)
  = body <- success_body env ;;
    Ok (if truthy_prop (lookup "metadata" env) then
          success_header ++ body ++ metadata_section (the (lookup "metadata" env))
        else success_header ++ body).
Proof.
  unfold formatSuccessResult, success_body. cbn [getProp bind].
  destruct (truthy_prop (lookup "data" env)).
  - destruct (formatData (the (lookup "data" env))); cbn [bind]; [|reflexivity].
    destruct (truthy_prop (lookup "metadata" env)); [|reflexivity].
    now rewrite append_assoc.
  - destruct (truthy_prop (lookup "result" env)); cbn [bind].
    + destruct (formatData (the (lookup "result" env))); cbn [bind]; [|reflexivity].
      destruct (truthy_prop (lookup "metadata" env)); [|reflexivity].
      now rewrite append_assoc.
    + destruct (truthy_prop (lookup "metadata" env)); [|reflexivity].
      now rewrite append_assoc.
Qed.

Lemma metadata_section_shape (m : json) :
  metadata_section m
  = "<div style="
    ++ Str.quoted "margin-top: 15px; padding-top: 15px; border-top: 1px solid #ddd;"
    ++ "><strong>Metadata:</strong><pre style=" ++ Str.quoted "margin-top: 10px;"
    ++ ">" ++ JSON_stringify m ++ "</pre></div>".
Proof.
  unfold metadata_section. cbn. now rewrite append_assoc.
Qed.

Lemma is_success_string_true (p : option json) :
  is_success_string p = true <-> p = Some (JStr "success").
Proof.
  destruct p as [[]|]; cbn [is_success_string]; try (split; congruence).
  rewrite String.eqb_eq. split; congruence.
Qed.

Lemma success_envelope_test (env : fields) :
  success_envelope env
  <-> is_success_string (lookup "status" env)
      || truthy_prop (lookup "success" env) = true.
Proof.
  unfold success_envelope.
  rewrite orb_true_iff, is_success_string_true.
  apply or_iff_compat_l. split.
  - intros (v & -> & H). exact H.
  - destruct (lookup "success" env) as [v|]; [|discriminate].
    intros H. now exists v.
Qed.

Lemma displayResult_object (box : element) (env : fields) :
  displayResult box (JObject env) false
  = if is_success_string (lookup "status" env)
       || truthy_prop (lookup "success" env)
    then html <- formatSuccessResult (JObject env) ;;
         Ok (set_innerHTML html (classList_remove ["loading"; "error"] box))
    else Ok (set_innerHTML ("<pre>" ++ JSON_stringify (JObject env) ++ "</pre>")
               (classList_remove ["loading"; "error"] box)).
Proof. reflexivity. Qed.

Lemma success_envelope_Permutation (env env' : fields) :
  NoDup (map fst env) -> Permutation env env' ->
  success_envelope env -> success_envelope env'.
Proof.
  intros ND P. unfold success_envelope.
  now rewrite !(lookup_Permutation _ env env' ND P).
Qed.

(** A success fragment starts with the success header. *)
Lemma formatSuccessResult_header (env : fields) (html : string) :
  formatSuccessResult (JObject env) = Ok html ->
  exists rest, html = success_header ++ rest.
Proof.
  rewrite formatSuccessResult_split.
  destruct (success_body env) as [body|]; cbn [bind]; [|discriminate].
  destruct (truthy_prop (lookup "metadata" env)); intros [= <-];
    eexists; reflexivity.
Qed.

(** *** Entries of a rendered mapping *)


(** C8.  An entry whose value is [null] is rendered, between the renderings
    of the entries before and after it, as the single line
    [<p><strong>Humanized Key:</strong> null</p>]. *)
Theorem formatObject_null_value
    (before after : fields) (key : string) (html_before html_after : string) :
  formatObject (JObject before) = Ok html_before ->
  formatObject (JObject after) = Ok html_after ->
  formatObject (JObject (before ++ (key, JNull) :: after)%list)
  = Ok (html_before
          ++ ("<p><strong>" ++ Humanize.formattedKey key ++ ":</strong> null</p>")
          ++ html_after).
Proof.
  intros Hb Ha.
  rewrite (formatObject_split _ _ key JNull _ _ Hb Ha).
  reflexivity.
Qed.

(** *** The two paths of [displayResult] *)

(** C7.  An envelope without [data] and [result] whose [status] and
    [success] are falsy or absent is shown as
    [<pre>JSON.stringify(envelope, null, 2)</pre>], and every field of the
    envelope stands in that text, key and value, indented by one level. *)
Theorem displayResult_fallback (box : element) (env : fields) :
  lookup "data" env = None ->
  lookup "result" env = None ->
  truthy_prop (lookup "status" env) = false ->
  truthy_prop (lookup "success" env) = false ->
  displayResult box (JObject env) false
  = Ok {| classList :=
            filter (fun c => negb (existsb (String.eqb c) ["loading"; "error"]))
                   (classList box);
          innerHTML := "<pre>" ++ JSON_stringify (JObject env) ++ "</pre>" |}
  /\ (forall key value,
         In (key, value) env ->
         Str.occurs (quote key ++ ": " ++ stringifyAt gap value)
                    (JSON_stringify (JObject env))).
Proof.
  intros _ _ Hstatus Hsuccess. split.
  - rewrite displayResult_object, Hsuccess, orb_false_r.
    destruct (is_success_string (lookup "status" env)) eqn:E; [|reflexivity].
    apply is_success_string_true in E. rewrite E in Hstatus. discriminate.
  - intros key value Hin. apply (occurs_member EmptyString key value env Hin).
Qed.

(** C9.  [displayResult] takes the success path exactly when [status] is
    the string [success] or [success] is truthy, and the raw JSON path
    exactly otherwise; a non-empty string or a truthy number under
    [success] suffices for the success path. *)
Theorem displayResult_success_test (box : element) (env : fields) :
  let cleared := classList_remove ["loading"; "error"] box in
  let success_path :=
    html <- formatSuccessResult (JObject env) ;; Ok (set_innerHTML html cleared) in
  let raw_path :=
    Ok (set_innerHTML ("<pre>" ++ JSON_stringify (JObject env) ++ "</pre>")
          cleared) in
  (success_envelope env <-> displayResult box (JObject env) false = success_path)
  /\ (~ success_envelope env <-> displayResult box (JObject env) false = raw_path)
  /\ (forall s, lookup "success" env = Some (JStr s) -> s <> EmptyString ->
                displayResult box (JObject env) false = success_path)
  /\ (forall n, lookup "success" env = Some (JNum n) -> number_truthy n = true ->
                displayResult box (JObject env) false = success_path).
Proof.
  intros cleared success_path raw_path.
  assert (Hdiff : success_path <> raw_path).
  { unfold success_path, raw_path.
    destruct (formatSuccessResult (JObject env)) as [html|e] eqn:E;
      cbn [bind]; [|discriminate].
    destruct (formatSuccessResult_header env html E) as (rest & ->).
    intros H. inversion H. }
  assert (Hyes : success_envelope env ->
                 displayResult box (JObject env) false = success_path).
  { intros H. apply success_envelope_test in H.
    now rewrite displayResult_object, H. }
  assert (Hno : ~ success_envelope env ->
                displayResult box (JObject env) false = raw_path).
  { intros H. rewrite success_envelope_test in H.
    apply not_true_is_false in H.
    now rewrite displayResult_object, H. }
  assert (Hdec : success_envelope env \/ ~ success_envelope env).
  { rewrite success_envelope_test.
    destruct (is_success_string (lookup "status" env)
              || truthy_prop (lookup "success" env)); [now left | now right]. }
  repeat split.
  - exact Hyes.
  - intros E. destruct Hdec as [H|H]; [exact H|].
    rewrite (Hno H) in E. now elim Hdiff.
  - exact Hno.
  - intros E H. rewrite (Hyes H) in E. now elim Hdiff.
  - intros s Hs Hne. apply Hyes. right. exists (JStr s). split; [exact Hs|].
    cbn [truthy]. apply negb_true_iff, String.eqb_neq. exact Hne.
  - intros n Hn Ht. apply Hyes. right. now exists (JNum n).
Qed.

(** *** The success fragment *)

(** C2 (as amended).  When the [data] field of an envelope is truthy, the
    success body is the rendering of [data] by [formatData] (and the
    fragment raises when that rendering does), and the [result] field is
    ignored: replacing its value changes nothing. *)
Theorem formatSuccessResult_data_precedence (env : fields) (d : json) :
  lookup "data" env = Some d ->
  truthy d = true ->
  formatSuccessResult (JObject env)
  = (body <- formatData d ;;
     Ok (if truthy_prop (lookup "metadata" env) then
           success_header ++ body ++ metadata_section (the (lookup "metadata" env))
         else success_header ++ body))
  /\ (forall r,
         formatSuccessResult (JObject (update "result" r env))
         = formatSuccessResult (JObject env)).
Proof.
  intros Hd Ht.
  assert (Hbody : forall env', lookup "data" env' = Some d ->
                               success_body env' = formatData d).
  { intros env' E. unfold success_body. rewrite E. cbn [truthy_prop the].
    now rewrite Ht. }
  split.
  - now rewrite formatSuccessResult_split, (Hbody env Hd).
  - intros r. rewrite !formatSuccessResult_split.
    rewrite (Hbody env Hd), Hbody.
    + now rewrite lookup_update_other by discriminate.
    + now rewrite lookup_update_other by discriminate.
Qed.

(** C3 (as amended).  For a success envelope whose [metadata] field is
    truthy and whose body renders, the displayed fragment is the success
    header, the body, and then the metadata section: a block with a top
    border that holds the label [Metadata:] and
    [JSON.stringify(metadata, null, 2)].  The same holds for every
    reordering of the envelope's (distinct) fields. *)
Theorem displayResult_metadata_section
    (box : element) (env : fields) (m : json) (body : string) :
  success_envelope env ->
  lookup "metadata" env = Some m ->
  truthy m = true ->
  success_body env = Ok body ->
  let section :=
    "<div style="
      ++ Str.quoted "margin-top: 15px; padding-top: 15px; border-top: 1px solid #ddd;"
      ++ "><strong>Metadata:</strong><pre style=" ++ Str.quoted "margin-top: 10px;"
      ++ ">" ++ JSON_stringify m ++ "</pre></div>" in
  let cleared := classList_remove ["loading"; "error"] box in
  displayResult box (JObject env) false
  = Ok (set_innerHTML (success_header ++ body ++ section) cleared)
  /\ (forall env' body',
         NoDup (map fst env) ->
         Permutation env env' ->
         success_body env' = Ok body' ->
         displayResult box (JObject env') false
         = Ok (set_innerHTML (success_header ++ body' ++ section) cleared)).
Proof.
  intros Hs Hm Ht Hb section cleared.
  assert (Hgen : forall env' body',
             success_envelope env' -> lookup "metadata" env' = Some m ->
             success_body env' = Ok body' ->
             displayResult box (JObject env') false
             = Ok (set_innerHTML (success_header ++ body' ++ section) cleared)).
  { intros env' body' Hs' Hm' Hb'.
    apply success_envelope_test in Hs'.
    rewrite displayResult_object, Hs', formatSuccessResult_split, Hb', Hm'.
    cbn [bind truthy_prop the]. rewrite Ht, metadata_section_shape.
    reflexivity. }
  split.
  - now apply Hgen.
  - intros env' body' ND P Hb'. apply Hgen.
    + now apply (success_envelope_Permutation env env').
    + now rewrite (lookup_Permutation _ env env' ND P).
    + exact Hb'.
Qed.

(** C10 (as amended).  For an envelope without [data] and [result] whose
    [metadata] field is truthy, the fragment is the success header, the
    pretty-printed envelope without its [status] and [success] fields, and
    the metadata section; the metadata stands in both: as the member
    [metadata] of the printed envelope, one level deep, and at top level in
    the metadata section. *)
Theorem formatSuccessResult_metadata_twice (env : fields) (m : json) :
  lookup "metadata" env = Some m ->
  truthy m = true ->
  lookup "data" env = None ->
  lookup "result" env = None ->
  let shown := delete "success" (delete "status" env) in
  formatSuccessResult (JObject env)
  = Ok (success_header
          ++ ("<pre>" ++ JSON_stringify (JObject shown) ++ "</pre>")
          ++ metadata_section m)
  /\ Str.occurs (quote "metadata" ++ ": " ++ stringifyAt gap m)
                (JSON_stringify (JObject shown))
  /\ Str.occurs (JSON_stringify m) (metadata_section m)
  /\ (forall key value,
         In (key, value) shown
         <-> In (key, value) env /\ key <> "status" /\ key <> "success").
Proof.
  intros Hm Ht Hd Hr shown.
  assert (Hshown : forall key value,
             In (key, value) shown
             <-> In (key, value) env /\ key <> "status" /\ key <> "success").
  { intros key value. unfold shown. rewrite !In_delete. tauto. }
  split; [|split; [|split; [|exact Hshown]]].
  - rewrite formatSuccessResult_split. unfold success_body.
    rewrite Hd, Hr, Hm. cbn [truthy_prop bind the]. now rewrite Ht.
  - apply (occurs_member EmptyString "metadata" m shown).
    apply Hshown. split; [now apply lookup_In|].
    split; discriminate.
  - rewrite metadata_section_shape.
    do 5 apply occurs_append_r. apply occurs_append_l, occurs_refl.
Qed.

(** *** Totality *)

(** [displayResult] returns on every value but [null], provided that no
    array under [data] or [result] holds a [null]. *)
Lemma displayResult_returns (box : element) (data : json) :
  data <> JNull ->
  (forall env items,
      data = JObject env ->
      lookup "data" env = Some (JArray items)
      \/ lookup "result" env = Some (JArray items) ->
      existsb is_null items = false) ->
  exists shown, displayResult box data false = Ok shown.
Proof.
  intros Hnn Hitems.
  destruct data as [| | | |items|env]; try (eexists; reflexivity);
    [now elim Hnn|].
  rewrite displayResult_object.
  destruct (_ || _); [|eexists; reflexivity].
  rewrite formatSuccessResult_split.
  assert (Hfd : forall p, truthy_prop p = true ->
                (forall items, p = Some (JArray items) ->
                               existsb is_null items = false) ->
                exists body, formatData (the p) = Ok body).
  { intros p Hp Hq.
    destruct (formatData (the p)) as [body|e] eqn:E; [now exists body|].
    apply formatData_throws_iff in E.
    destruct p as [v|]; [|discriminate Hp]. cbn [the] in E.
    destruct E as [-> | E]; [discriminate Hp|].
    destruct v; try discriminate E. cbn [has_null_item] in E.
    rewrite (Hq _ eq_refl) in E. discriminate E. }
  assert (Hbody : exists body, success_body env = Ok body).
  { unfold success_body.
    destruct (truthy_prop (lookup "data" env)) eqn:Td.
    - apply (Hfd _ Td). intros items E. apply (Hitems env items eq_refl). now left.
    - destruct (truthy_prop (lookup "result" env)) eqn:Tr; [|eexists; reflexivity].
      apply (Hfd _ Tr). intros items E. apply (Hitems env items eq_refl). now right. }
  destruct Hbody as (body & ->). cbn [bind]. eexists; reflexivity.
Qed.

(** C1 (where the code raises).  For a success envelope whose truthy
    [data] is an array holding a [null], [displayResult] raises a
    [TypeError] instead of returning: [formatData] hands the element to
    [formatObject], which calls [Object.entries(null)]. *)
Theorem displayResult_null_item_raises
    (box : element) (env : fields) (items : list json) :
  success_envelope env ->
  lookup "data" env = Some (JArray items) ->
  In JNull items ->
  displayResult box (JObject env) false = Throw TypeError.
Proof.
  intros Hs Hd Hin.
  apply success_envelope_test in Hs.
  rewrite displayResult_object, Hs, formatSuccessResult_split.
  unfold success_body. rewrite Hd. cbn [truthy_prop truthy the formatData].
  rewrite forEach_card_throws; [reflexivity|].
  apply existsb_exists. exists JNull. now split.
Qed.

(** *** Cards *)

(** An array without [null] is rendered as one card per element, in order;
    the empty array as the empty string. *)
Lemma formatData_array_cards (items : list json) :
  existsb is_null items = false ->
  exists bodies,
    List.length bodies = List.length items
    /\ Forall2 (fun item body => formatObject item = Ok body) items bodies
    /\ formatData (JArray items)
       = Ok (Str.concat_all
               (map (fun body => card_open ++ body ++ card_close) bodies)).
Proof.
  intros H.
  destruct (forEach_card_returns items EmptyString H) as (bodies & HF & E).
  exists bodies. repeat split; [|exact HF|exact E].
  symmetry. apply (Forall2_length HF).
Qed.

(** C6 (where the code raises).  On an array that holds a [null], such
    as the one-element array [[null]], [formatData] raises a [TypeError]
    and renders no card at all. *)
Theorem formatData_null_item_raises (items : list json) :
  In JNull items -> formatData (JArray items) = Throw TypeError.
Proof.
  intros Hin. apply formatData_throws_iff. right.
  cbn [has_null_item]. apply existsb_exists. exists JNull. now split.
Qed.

End RendererFacts.

(** ** The scenarios *)

Import Scenarios.

Example scenarioA_rendering :
  displayResult box (JObject scenarioA) false
  = Ok (shown (success_header
                 ++ "<p><strong>City:</strong> Beirut</p>"
                 ++ "<p><strong>Year:</strong> 1920</p>")).
Proof. reflexivity. Qed.

Example scenarioB_rendering :
  displayResult box (JObject scenarioB) false
  = Ok (shown (success_header
                 ++ card_open ++ "<p><strong>City:</strong> Beirut</p>" ++ card_close
                 ++ card_open ++ "<p><strong>City:</strong> Tripoli</p>" ++ card_close)).
Proof. reflexivity. Qed.

Example scenarioC_rendering :
  displayResult box (JObject scenarioC) false
  = Ok (shown (success_header
                 ++ formatEntry "routes" (JArray [JNum 1%Z; JNum 2%Z])
                 ++ metadata_section (JObject [("count", JNum 3%Z)])))
  /\ Str.includes "<strong>Routes:</strong>"
       (formatEntry "routes" (JArray [JNum 1%Z; JNum 2%Z])) = true.
Proof. split; reflexivity. Qed.

Example empty_array_rendering :
  formatData (JArray [] : json Z) = Ok EmptyString.
Proof. reflexivity. Qed.

Lemma displayResult_null_item_raises_witness :
  displayResult box (JObject null_item) false = Throw TypeError.
Proof.
  exact (displayResult_null_item_raises box null_item [JNull]
           (or_introl eq_refl) eq_refl (or_introl eq_refl)).
Defined.

Lemma formatData_null_item_raises_witness :
  formatData (JArray [JNull] : json Z) = Throw TypeError.
Proof.
  exact (formatData_null_item_raises [JNull] (or_introl eq_refl)).
Defined.


Lemma formatObject_null_value_witness :
  formatObject
    (JObject [("city", JStr "Beirut"); ("old_name", JNull); ("year", JNum 1920%Z)])
  = Ok ("<p><strong>City:</strong> Beirut</p>"
          ++ "<p><strong>Old Name:</strong> null</p>"
          ++ "<p><strong>Year:</strong> 1920</p>").
Proof.
  exact (formatObject_null_value
           [("city", JStr "Beirut")] [("year", JNum 1920%Z)] "old_name"
           "<p><strong>City:</strong> Beirut</p>"
           "<p><strong>Year:</strong> 1920</p>"
           eq_refl eq_refl).
Defined.

Lemma displayResult_fallback_witness :
  displayResult box (JObject scenarioD) false
  = Ok (shown ("<pre>{" ++ Str.nl ++ "  " ++ Str.quoted "weird_field" ++ ": "
                 ++ Str.quoted "x" ++ Str.nl ++ "}</pre>")).
Proof.
  exact (proj1 (displayResult_fallback box scenarioD
                  eq_refl eq_refl eq_refl eq_refl)).
Defined.

Lemma displayResult_success_test_witness :
  success_envelope string_success
  /\ displayResult box (JObject string_success) false
     = Ok (shown (success_header ++ "<p>ok</p>")).
Proof.
  assert (H : success_envelope string_success).
  { right. exists (JStr "yes"). split; reflexivity. }
  split; [exact H|].
  exact (proj1 (proj1 (displayResult_success_test box string_success)) H).
Defined.

Lemma formatSuccessResult_data_precedence_witness :
  formatSuccessResult (JObject data_and_result)
  = Ok (success_header ++ "<p><strong>City:</strong> Beirut</p>")
  /\ formatSuccessResult (JObject (update "result" (JStr "other") data_and_result))
     = formatSuccessResult (JObject data_and_result).
Proof.
  pose proof
    (formatSuccessResult_data_precedence data_and_result
       (JObject [("city", JStr "Beirut")]) eq_refl eq_refl) as [H1 H2].
  split; [exact H1 | exact (H2 (JStr "other"))].
Defined.

Lemma displayResult_metadata_section_witness :
  displayResult box (JObject metadata_first) false
  = Ok (shown (success_header ++ "<p>ok</p>"
                 ++ metadata_section (JObject [("count", JNum 3%Z)]))).
Proof.
  assert (H : success_envelope metadata_first) by (left; reflexivity).
  exact (proj1 (displayResult_metadata_section box metadata_first
                  (JObject [("count", JNum 3%Z)]) "<p>ok</p>"
                  H eq_refl eq_refl eq_refl)).
Defined.

Lemma formatSuccessResult_metadata_twice_witness :
  formatSuccessResult (JObject metadata_no_body)
  = Ok (success_header
          ++ ("<pre>"
                ++ JSON_stringify
                     (JObject [("metadata", JObject [("count", JNum 3%Z)]);
                               ("note", JStr "n")])
                ++ "</pre>")
          ++ metadata_section (JObject [("count", JNum 3%Z)])).
Proof.
  exact (proj1 (formatSuccessResult_metadata_twice metadata_no_body
                  (JObject [("count", JNum 3%Z)])
                  eq_refl eq_refl eq_refl eq_refl)).
Defined.

(** C2 as stated fails: a [data] field that is present but falsy is passed
    over, and the [result] field is rendered and is not ignored. *)
Lemma formatSuccessResult_falsy_data_renders_result :
  lookup "data" falsy_data = Some (JBool false)
  /\ lookup "result" falsy_data = Some (JStr "x")
  /\ formatData (JBool false : json Z) = Ok "<p>false</p>"
  /\ formatSuccessResult (JObject falsy_data) = Ok (success_header ++ "<p>x</p>")
  /\ formatSuccessResult (JObject falsy_data)
     <> Ok (success_header ++ "<p>false</p>")
  /\ formatSuccessResult (JObject (update "result" (JStr "y") falsy_data))
     <> formatSuccessResult (JObject falsy_data).
Proof.
  repeat split; discriminate.
Qed.

(** C3 as stated fails: a [metadata] field that is falsy gets no metadata
    section, and an envelope that is no success envelope is printed as raw
    JSON, without the label and without the border. *)
Lemma displayResult_no_metadata_section :
  (lookup "metadata" null_metadata = Some JNull
   /\ displayResult box (JObject null_metadata) false
      = Ok (shown (success_header ++ "<p>x</p>"))
   /\ Str.includes "Metadata" (success_header ++ "<p>x</p>") = false)
  /\ (lookup "metadata" metadata_only = Some (JObject [("count", JNum 3%Z)])
      /\ displayResult box (JObject metadata_only) false
         = Ok (shown ("<pre>" ++ JSON_stringify (JObject metadata_only) ++ "</pre>"))
      /\ Str.includes "Metadata"
           ("<pre>" ++ JSON_stringify (JObject metadata_only) ++ "</pre>") = false
      /\ Str.includes "border"
           ("<pre>" ++ JSON_stringify (JObject metadata_only) ++ "</pre>") = false).
Proof.
  repeat split.
Qed.

(** C10 as stated fails: a [metadata] field that is falsy stands in the
    printed envelope only; there is no metadata section. *)
Lemma formatSuccessResult_metadata_once :
  lookup "metadata" null_metadata_no_body = Some JNull
  /\ lookup "data" null_metadata_no_body = None
  /\ lookup "result" null_metadata_no_body = None
  /\ formatSuccessResult (JObject null_metadata_no_body)
     = Ok (success_header
             ++ "<pre>{" ++ Str.nl ++ "  " ++ Str.quoted "metadata" ++ ": null"
             ++ Str.nl ++ "}</pre>")
  /\ Str.count_occurrences (JSON_stringify (JNull : json Z))
       (success_header
          ++ "<pre>{" ++ Str.nl ++ "  " ++ Str.quoted "metadata" ++ ": null"
          ++ Str.nl ++ "}</pre>") = 1
  /\ Str.includes "Metadata"
       (success_header
          ++ "<pre>{" ++ Str.nl ++ "  " ++ Str.quoted "metadata" ++ ": null"
          ++ Str.nl ++ "}</pre>") = false.
Proof.
  repeat split.
Qed.

(** ** [formatMarkdown] *)

Module MarkdownFacts.
Import Markdown.

Lemma some_char_app (p : ascii -> bool) (a b : string) :
  some_char p (a ++ b) = some_char p a || some_char p b.
Proof.
  induction a as [|c a IH]; [reflexivity|].
  cbn [append some_char]. now rewrite IH, orb_assoc.
Qed.

Lemma replace_newlines_app (a b : string) :
  replace_newlines (a ++ b) = replace_newlines a ++ replace_newlines b.
Proof.
  induction a as [|c a IH]; [reflexivity|].
  cbn [append replace_newlines]. rewrite IH.
  destruct (is_newline c); reflexivity.
Qed.

Lemma replace_newlines_none (s : string) :
  some_char is_newline s = false -> replace_newlines s = s.
Proof.
  induction s as [|c s IH]; [reflexivity|].
  cbn [some_char replace_newlines]. intros H.
  apply orb_false_iff in H as [-> H]. now rewrite (IH H).
Qed.

Lemma replace_newlines_clean (s : string) :
  some_char is_newline (replace_newlines s) = false.
Proof.
  induction s as [|c s IH]; [reflexivity|].
  cbn [replace_newlines]. destruct (is_newline c) eqn:E.
  - rewrite some_char_app, IH. reflexivity.
  - cbn [some_char]. now rewrite E, IH.
Qed.

(** A star-free run that is followed by a star or by the end of the text is
    what [[^\*]+] consumes. *)
Lemma span_non_star_run (run tail : string) :
  some_char is_star run = false ->
  (tail = EmptyString \/ exists t, tail = String "*" t) ->
  span_non_star (run ++ tail) = (run, tail).
Proof.
  intros Hrun Htail. induction run as [|c run IH].
  - destruct Htail as [-> | (t & ->)]; reflexivity.
  - cbn [some_char] in Hrun. apply orb_false_iff in Hrun as [Hc Hrun].
    cbn [append span_non_star]. now rewrite Hc, (IH Hrun).
Qed.

Lemma match_bold_hit (run rest : string) :
  some_char is_star run = false ->
  run <> EmptyString ->
  match_bold ("**" ++ run ++ "**" ++ rest) = Some run.
Proof.
  intros Hrun Hne.
  change ("**" ++ run ++ "**" ++ rest)
    with (String "*" (String "*" (run ++ String "*" (String "*" rest)))).
  cbn [match_bold is_star Ascii.eqb Bool.eqb andb].
  rewrite span_non_star_run; [|exact Hrun|right; eauto].
  destruct run; [now elim Hne | reflexivity].
Qed.

Lemma match_bold_starts (s run : string) :
  match_bold s = Some run -> exists rest, s = "**" ++ rest.
Proof.
  destruct s as [|a [|b rest]]; try discriminate.
  cbn [match_bold]. destruct (is_star a) eqn:A; [|discriminate].
  destruct (is_star b) eqn:B; [|discriminate]. intros _.
  apply Ascii.eqb_eq in A, B. subst. now exists rest.
Qed.

Lemma replace_bold_skip (a b : string) (k : nat) :
  replace_bold (String.length a + k) (a ++ b) = replace_bold k b.
Proof.
  induction a as [|c a IH]; [reflexivity|]. exact IH.
Qed.

Lemma replace_bold_star_free_prefix (pre s : string) :
  some_char is_star pre = false ->
  replace_bold 0 (pre ++ s) = pre ++ replace_bold 0 s.
Proof.
  intros H. induction pre as [|c pre IH]; [reflexivity|].
  cbn [some_char] in H. apply orb_false_iff in H as [Hc H].
  cbn [append replace_bold].
  assert (M : match_bold (String c (pre ++ s)) = None).
  { destruct (pre ++ s); cbn [match_bold]; [reflexivity|]. now rewrite Hc. }
  now rewrite M, (IH H).
Qed.

Lemma replace_bold_no_double_star (s : string) :
  ~ Str.occurs "**" s -> replace_bold 0 s = s.
Proof.
  induction s as [|c s IH]; [reflexivity|]. intros H.
  cbn [replace_bold].
  destruct (match_bold (String c s)) as [run|] eqn:M.
  - apply match_bold_starts in M as (rest & E).
    elim H. exists EmptyString, rest. exact E.
  - rewrite IH; [reflexivity|].
    intros (p & q & E). apply H. exists (String c p), q. now rewrite E.
Qed.

End MarkdownFacts.

(** X14.  A bold span whose text is not empty and holds no star, after a text
    without stars, becomes a [strong] element; line breaks become [<br>]
    inside and outside of it, and the text behind the span is formatted on
    its own. *)
Theorem formatMarkdown_bold (before run rest : string) :
  Markdown.some_char Markdown.is_star before = false ->
  Markdown.some_char Markdown.is_star run = false ->
  run <> EmptyString ->
  Markdown.formatMarkdown (before ++ "**" ++ run ++ "**" ++ rest)
  = Markdown.replace_newlines before
    ++ "<strong>" ++ Markdown.replace_newlines run ++ "</strong>"
    ++ Markdown.formatMarkdown rest.
Proof.
  intros Hb Hr Hne. unfold Markdown.formatMarkdown.
  rewrite (MarkdownFacts.replace_bold_star_free_prefix _ _ Hb).
  change ("**" ++ run ++ "**" ++ rest)
    with (String "*" ("*" ++ run ++ "**" ++ rest)).
  cbn [Markdown.replace_bold].
  change (String "*" ("*" ++ run ++ "**" ++ rest))
    with ("**" ++ run ++ "**" ++ rest).
  rewrite (MarkdownFacts.match_bold_hit run rest Hr Hne).
  replace ("*" ++ run ++ "**" ++ rest) with (("*" ++ run ++ "**") ++ rest)
    by (cbn [append]; now rewrite append_assoc).
  replace (String.length run + 3)
    with (String.length ("*" ++ run ++ "**") + 0).
  - rewrite MarkdownFacts.replace_bold_skip.
    rewrite !MarkdownFacts.replace_newlines_app.
    reflexivity.
  - cbn [append String.length]. clear.
    induction run as [|c run IH]; cbn [append String.length]; lia.
Qed.

Lemma formatMarkdown_bold_witness :
  Markdown.formatMarkdown ("Try " ++ "**" ++ "Jeita Grotto" ++ "**" ++ " today")
  = "Try <strong>Jeita Grotto</strong> today".
Proof.
  exact (formatMarkdown_bold "Try " "Jeita Grotto" " today"
           eq_refl eq_refl ltac:(discriminate)).
Defined.

(** X15.  A text in which no two stars stand side by side is left as it is but
    for its line breaks; without line breaks it is returned unchanged,
    whatever markup it holds. *)
Theorem formatMarkdown_no_double_star (text : string) :
  ~ Str.occurs "**" text ->
  Markdown.formatMarkdown text = Markdown.replace_newlines text
  /\ (Markdown.some_char Markdown.is_newline text = false ->
      Markdown.formatMarkdown text = text).
Proof.
  intros H. unfold Markdown.formatMarkdown.
  rewrite (MarkdownFacts.replace_bold_no_double_star text H).
  split; [reflexivity|]. apply MarkdownFacts.replace_newlines_none.
Qed.

Lemma formatMarkdown_no_double_star_witness :
  Markdown.formatMarkdown "2 * 3 <b>is</b> *six*" = "2 * 3 <b>is</b> *six*".
Proof.
  refine (proj2 (formatMarkdown_no_double_star "2 * 3 <b>is</b> *six*" _) eq_refl).
  intros H. apply includes_spec in H. discriminate H.
Defined.

(** X16.  The formatted text holds no line feed. *)
Theorem formatMarkdown_no_line_feed (text : string) :
  Markdown.some_char Markdown.is_newline (Markdown.formatMarkdown text) = false.
Proof. apply MarkdownFacts.replace_newlines_clean. Qed.

(** ** Labels *)

Module LabelFacts.
Import Humanize.

Lemma toUpperCase_word_char (c : ascii) :
  is_word_char (toUpperCase c) = is_word_char c.
Proof. destruct c as [[] [] [] [] [] [] [] []]; reflexivity. Qed.

Lemma toUpperCase_idempotent (c : ascii) :
  toUpperCase (toUpperCase c) = toUpperCase c.
Proof. destruct c as [[] [] [] [] [] [] [] []]; reflexivity. Qed.

Lemma toUpperCase_underscore (c : ascii) :
  is_underscore (toUpperCase c) = is_underscore c.
Proof. destruct c as [[] [] [] [] [] [] [] []]; reflexivity. Qed.

Lemma toUpperCase_digit (c : ascii) : is_digit c = true -> toUpperCase c = c.
Proof. destruct c as [[] [] [] [] [] [] [] []]; try discriminate; reflexivity. Qed.

Lemma upcase_idempotent (prev : bool) (s : string) :
  upcase_word_starts prev (upcase_word_starts prev s) = upcase_word_starts prev s.
Proof.
  revert prev. induction s as [|c s IH]; intros prev; [reflexivity|].
  cbn [upcase_word_starts].
  destruct (is_word_char c && negb prev) eqn:E.
  - rewrite toUpperCase_word_char, E, toUpperCase_idempotent, IH. reflexivity.
  - rewrite E, IH. reflexivity.
Qed.

Lemma replace_underscores_clean (s : string) :
  no_underscore (replace_underscores s) = true.
Proof.
  induction s as [|c s IH]; [reflexivity|].
  cbn [replace_underscores Str.map_chars]. fold (replace_underscores s).
  unfold no_underscore in *. cbn [Str.all_chars]. rewrite IH.
  destruct (is_underscore c) eqn:U; [reflexivity | now rewrite U].
Qed.

Lemma upcase_no_underscore (prev : bool) (s : string) :
  no_underscore s = true -> no_underscore (upcase_word_starts prev s) = true.
Proof.
  revert prev. unfold no_underscore.
  induction s as [|c s IH]; intros prev; [reflexivity|].
  cbn [Str.all_chars upcase_word_starts]. rewrite andb_true_iff.
  intros [Hc Hs]. rewrite (IH _ Hs), andb_true_r.
  destruct (is_word_char c && negb prev); [|exact Hc].
  now rewrite toUpperCase_underscore.
Qed.

Lemma replace_underscores_none (s : string) :
  no_underscore s = true -> replace_underscores s = s.
Proof.
  unfold no_underscore. induction s as [|c s IH]; [reflexivity|].
  cbn [Str.all_chars]. rewrite andb_true_iff, negb_true_iff. intros [Hc Hs].
  cbn [replace_underscores Str.map_chars]. fold (replace_underscores s).
  now rewrite Hc, (IH Hs).
Qed.

Lemma upcase_length (prev : bool) (s : string) :
  String.length (upcase_word_starts prev s) = String.length s.
Proof.
  revert prev. induction s as [|c s IH]; intros prev; [reflexivity|].
  cbn [upcase_word_starts String.length]. now rewrite IH.
Qed.

Lemma replace_underscores_length (s : string) :
  String.length (replace_underscores s) = String.length s.
Proof.
  induction s as [|c s IH]; [reflexivity|].
  cbn [replace_underscores Str.map_chars String.length].
  fold (replace_underscores s). now rewrite IH.
Qed.

(** The decimal numeral of an index is made of digits. *)
Lemma string_of_uint_digits (d : Decimal.uint) :
  Str.all_chars is_digit (NilEmpty.string_of_uint d) = true.
Proof. induction d; cbn [NilEmpty.string_of_uint Str.all_chars]; auto. Qed.

Lemma digits_unchanged (s : string) :
  Str.all_chars is_digit s = true -> formattedKey s = s.
Proof.
  intros H.
  assert (A : Str.all_chars is_alnum s = true).
  { revert H. induction s as [|c s IH]; [reflexivity|].
    cbn [Str.all_chars]. rewrite !andb_true_iff. intros [Hc Hs].
    split; [|now apply IH]. unfold is_alnum. rewrite Hc. apply orb_true_r. }
  unfold formattedKey.
  rewrite (HumanizeFacts.replace_underscores_alnum s A).
  destruct s as [|c s]; [reflexivity|].
  cbn [Str.all_chars] in H, A.
  apply andb_true_iff in H as [Hc _]. apply andb_true_iff in A as [Ac As].
  cbn [upcase_word_starts].
  rewrite (HumanizeFacts.alnum_is_word_char c Ac), (HumanizeFacts.upcase_inside_word s As).
  cbn [negb andb]. now rewrite (toUpperCase_digit c Hc).
Qed.

End LabelFacts.

(** X12.  Humanizing a label again changes nothing. *)
Theorem formattedKey_idempotent (key : string) :
  Humanize.formattedKey (Humanize.formattedKey key) = Humanize.formattedKey key.
Proof.
  unfold Humanize.formattedKey at 1.
  rewrite LabelFacts.replace_underscores_none.
  - unfold Humanize.formattedKey. apply LabelFacts.upcase_idempotent.
  - apply LabelFacts.upcase_no_underscore, LabelFacts.replace_underscores_clean.
Qed.

(** X13.  The label has as many characters as the key and holds no underscore. *)
Theorem formattedKey_length_no_underscore (key : string) :
  String.length (Humanize.formattedKey key) = String.length key
  /\ Str.all_chars (fun c => negb (Humanize.is_underscore c))
       (Humanize.formattedKey key) = true.
Proof.
  unfold Humanize.formattedKey. split.
  - now rewrite LabelFacts.upcase_length, LabelFacts.replace_underscores_length.
  - apply LabelFacts.upcase_no_underscore, LabelFacts.replace_underscores_clean.
Qed.

(** ** More on the renderer and the handlers *)

Section RendererMore.

Context {number : Type} {numberOps : JSNumber number}.

Abbreviation json := (json number).
Abbreviation fields := (list (string * json)).

(** *** Where [displayResult] raises *)

Lemma success_body_payload (env : fields) :
  success_body env
  = match payload env with
    | Some p => formatData p
    | None =>
        Ok ("<pre>"
              ++ JSON_stringify (JObject (delete "success" (delete "status" env)))
              ++ "</pre>")
    end.
Proof.
  unfold success_body, payload.
  destruct (lookup "data" env) as [d|]; cbn [truthy_prop the].
  - destruct (truthy d); [reflexivity|].
    destruct (lookup "result" env) as [r|]; cbn [truthy_prop the]; [|reflexivity].
    destruct (truthy r); reflexivity.
  - destruct (lookup "result" env) as [r|]; cbn [truthy_prop the]; [|reflexivity].
    destruct (truthy r); reflexivity.
Qed.

Lemma payload_truthy (env : fields) (p : json) :
  payload env = Some p -> truthy p = true.
Proof.
  unfold payload.
  destruct (truthy_prop (lookup "data" env)) eqn:D.
  - intros E. now rewrite E in D.
  - destruct (truthy_prop (lookup "result" env)) eqn:R; [|discriminate].
    intros E. now rewrite E in R.
Qed.

(** X1.  Without the error flag, [displayResult] raises on [null] and on a
    success envelope whose payload (the truthy [data], else the truthy
    [result]) is an array that holds a [null], and on nothing else. *)
Theorem displayResult_raises_iff (box : element) (data : json) (e : exn) :
  displayResult box data false = Throw e
  <-> data = JNull
      \/ exists env p,
           data = JObject env /\ success_envelope env
           /\ payload env = Some p /\ has_null_item p = true.
Proof.
  split.
  - destruct data as [| | | |items|env]; try discriminate; [now left|].
    rewrite displayResult_object.
    destruct (_ || _) eqn:T; [|discriminate].
    rewrite formatSuccessResult_split, success_body_payload.
    destruct (payload env) as [p|] eqn:P; cbn [bind].
    + destruct (formatData p) as [body|e'] eqn:F; cbn [bind]; [discriminate|].
      intros _. right. exists env, p.
      apply formatData_throws_iff in F as [-> | F].
      * apply payload_truthy in P. discriminate P.
      * repeat split; trivial. now apply success_envelope_test.
    + discriminate.
  - intros [-> | (env & p & -> & Hs & P & Hn)]; [now destruct e|].
    apply success_envelope_test in Hs.
    rewrite displayResult_object, Hs, formatSuccessResult_split,
      success_body_payload, P.
    assert (F : formatData p = Throw e)
      by (apply formatData_throws_iff; now right).
    now rewrite F.
Qed.

(** X2.  A response that is no object and not [null] (an array, a string, a
    number, a boolean) is shown as raw JSON, whatever it holds. *)
Theorem displayResult_not_an_object (box : element) (data : json) :
  data <> JNull ->
  (forall env, data <> JObject env) ->
  displayResult box data false
  = Ok (set_innerHTML ("<pre>" ++ JSON_stringify data ++ "</pre>")
          (classList_remove ["loading"; "error"] box)).
Proof.
  intros Hn Ho. destruct data as [| | | |items|env]; try reflexivity.
  - now elim Hn.
  - now elim (Ho env).
Qed.

(** *** The classes of the result box *)

Lemma classList_remove_In (tokens : list string) (box : element) (c : string) :
  In c (classList (classList_remove tokens box))
  <-> In c (classList box) /\ ~ In c tokens.
Proof.
  cbn [classList_remove classList]. rewrite filter_In, negb_true_iff.
  apply and_iff_compat_l.
  rewrite <- not_true_iff_false, existsb_exists. split.
  - intros H Hin. apply H. exists c. split; [exact Hin | apply String.eqb_refl].
  - intros H (x & Hin & E). apply String.eqb_eq in E. now subst.
Qed.

Lemma cleared_without_error (box : element) :
  existsb (String.eqb "error")
    (classList (classList_remove ["loading"; "error"] box)) = false.
Proof.
  apply not_true_iff_false. rewrite existsb_exists. intros (x & Hin & E).
  apply String.eqb_eq in E. subst x.
  apply classList_remove_In in Hin as [_ Hn]. apply Hn. right. now left.
Qed.

Lemma cleared_count_error (box : element) :
  count_occ string_dec
    (classList (classList_remove ["loading"; "error"] box)) "error" = 0.
Proof.
  apply count_occ_not_In. intros Hin.
  apply classList_remove_In in Hin as [_ Hn]. apply Hn. right. now left.
Qed.

(** With the error flag [displayResult] does not raise, whatever [data]
    is: the box loses [loading], gets [error] once, behind the classes it
    keeps, and shows the message. *)
Lemma displayResult_error_flag (box : element) (data : json) :
  displayResult box data true
  = Ok {| classList :=
            (classList (classList_remove ["loading"; "error"] box) ++ ["error"])%list;
          innerHTML :=
            "<p style=" ++ Str.quoted "color: #e74c3c; font-weight: 600;"
              ++ ">❌ Error: " ++ template_string data ++ "</p>" |}.
Proof.
  unfold displayResult, classList_add, set_innerHTML. cbn [classList innerHTML].
  now rewrite cleared_without_error.
Qed.

Lemma displayResult_classList
    (box shown : element) (data : json) (isError : bool) :
  displayResult box data isError = Ok shown ->
  classList shown
  = if isError then
      (classList (classList_remove ["loading"; "error"] box) ++ ["error"])%list
    else classList (classList_remove ["loading"; "error"] box).
Proof.
  intros H. destruct isError.
  - rewrite displayResult_error_flag in H. now injection H as <-.
  - destruct data as [| | | |items|env]; try (injection H as <-; reflexivity).
    + discriminate H.
    + rewrite displayResult_object in H.
      destruct (_ || _); [|injection H as <-; reflexivity].
      destruct (formatSuccessResult (JObject env)); [|discriminate H].
      cbn [bind] in H. now injection H as <-.
Qed.

Lemma displayResult_not_loading
    (box shown : element) (data : json) (isError : bool) :
  displayResult box data isError = Ok shown -> ~ In "loading" (classList shown).
Proof.
  intros H. rewrite (displayResult_classList _ _ _ _ H).
  destruct isError; [rewrite in_app_iff|]; rewrite classList_remove_In;
    cbn [In]; intuition discriminate.
Qed.

(** X3.  Whenever [displayResult] returns, the box is not [loading], carries
    [error] once if the error flag is set and not at all otherwise, and has
    kept every other class it had. *)
Theorem displayResult_classes
    (box shown : element) (data : json) (isError : bool) :
  displayResult box data isError = Ok shown ->
  ~ In "loading" (classList shown)
  /\ count_occ string_dec (classList shown) "error" = (if isError then 1 else 0)
  /\ (forall c, c <> "loading" -> c <> "error" ->
                (In c (classList shown) <-> In c (classList box))).
Proof.
  intros H. split; [exact (displayResult_not_loading _ _ _ _ H)|].
  rewrite (displayResult_classList _ _ _ _ H). repeat split.
  - destruct isError; [rewrite count_occ_app|]; rewrite cleared_count_error;
      reflexivity.
  - destruct isError; [rewrite in_app_iff|]; rewrite classList_remove_In;
      cbn [In]; intuition congruence.
  - destruct isError; [rewrite in_app_iff|]; rewrite classList_remove_In;
      cbn [In]; intuition congruence.
Qed.

(** *** [setLoading] and the handlers *)

Lemma cleared_after_setLoading (box : element) :
  classList (classList_remove ["loading"; "error"] (setLoading box))
  = classList (classList_remove ["loading"; "error"] box).
Proof.
  unfold setLoading, classList_add, set_innerHTML, classList_remove.
  cbn [classList innerHTML].
  destruct (existsb (String.eqb "loading") (classList box)); [reflexivity|].
  rewrite filter_app. cbn. now rewrite app_nil_r.
Qed.

Lemma displayResult_same_classes (box box' : element) (data : json) (isError : bool) :
  classList (classList_remove ["loading"; "error"] box')
  = classList (classList_remove ["loading"; "error"] box) ->
  displayResult box' data isError = displayResult box data isError.
Proof.
  intros H.
  assert (E : forall html,
             set_innerHTML html (classList_remove ["loading"; "error"] box')
             = set_innerHTML html (classList_remove ["loading"; "error"] box)).
  { intros html. unfold set_innerHTML. now rewrite H. }
  unfold displayResult. destruct isError.
  - unfold classList_add, set_innerHTML. cbn [classList innerHTML]. now rewrite H.
  - destruct (getProp data "status"); cbn [bind]; [|reflexivity].
    destruct (getProp data "success"); cbn [bind]; [|reflexivity].
    destruct (_ || _).
    + destruct (formatSuccessResult data); cbn [bind]; [|reflexivity].
      now rewrite E.
    + now rewrite E.
Qed.

(** X4.  Whenever [displayResult] returns, it returns the same box
    whether or not [setLoading] was called on the box before, and whatever
    the box showed before: nothing of the previous content or of the
    loading state is left. *)
Theorem displayResult_after_setLoading
    (box shown : element) (data : json) (isError : bool) :
  (displayResult (setLoading box) data isError = Ok shown
   <-> displayResult box data isError = Ok shown)
  /\ (forall html,
         displayResult (set_innerHTML html box) data isError = Ok shown
         <-> displayResult box data isError = Ok shown).
Proof.
  split.
  - now rewrite (displayResult_same_classes box (setLoading box) data isError
                   (cleared_after_setLoading box)).
  - intros html.
    now rewrite (displayResult_same_classes box (set_innerHTML html box)
                   data isError eq_refl).
Qed.

(** X5.  A handler does not raise, however its request ends: a rejected
    request and a response that the renderer raises on are both shown as an
    error message, any other response as [displayResult] renders it; in no
    case does the box stay [loading]. *)
Theorem getSkiConditions_returns
    (message : exn -> string) (box : element) (r : response number) :
  exists shown,
    getSkiConditions message box r = Ok shown
    /\ ~ In "loading" (classList shown)
    /\ match r with
       | Rejected error_message =>
           displayResult box (JStr error_message) true = Ok shown
       | Parsed data =>
           match displayResult box data false with
           | Ok rendered => shown = rendered
           | Throw error =>
               displayResult box (JStr (message error)) true = Ok shown
           end
       end.
Proof.
  pose proof (displayResult_not_loading box) as Hload.
  unfold getSkiConditions, try_displayResult.
  destruct r as [data|error_message].
  - rewrite (displayResult_same_classes box (setLoading box) data false
               (cleared_after_setLoading box)).
    destruct (displayResult box data false) as [rendered|error] eqn:E.
    + exists rendered. repeat split; [|reflexivity..]. exact (Hload _ _ _ E).
    + assert (E' : displayResult
                     (classList_remove ["loading"; "error"] (setLoading box))
                     (JStr (message error)) true
                   = displayResult box (JStr (message error)) true).
      { apply displayResult_same_classes.
        rewrite <- (cleared_after_setLoading box).
        unfold classList_remove. cbn [classList].
        induction (classList (setLoading box)) as [|c l IH]; [reflexivity|].
        cbn [filter].
        destruct (negb (existsb (String.eqb c) ["loading"; "error"])) eqn:K;
          cbn [filter]; [|exact IH].
        now rewrite K, IH. }
      rewrite E'. rewrite displayResult_error_flag. eexists.
      split; [reflexivity|]. split; [|reflexivity].
      apply (Hload _ (JStr (message error)) true), displayResult_error_flag.
  - rewrite (displayResult_same_classes box (setLoading box) _ true
               (cleared_after_setLoading box)).
    rewrite displayResult_error_flag. eexists.
    split; [reflexivity|]. split; [|reflexivity].
    apply (Hload _ (JStr error_message) true), displayResult_error_flag.
Qed.

(** *** Arrays and their elements *)

Lemma forEach_card_accumulator (items : list json) (html : string) :
  forEach_card items html
  = cards <- forEach_card items EmptyString ;; Ok (html ++ cards).
Proof.
  revert html. induction items as [|item items IH]; intros html.
  - cbn [forEach_card bind]. now rewrite append_nil_r.
  - cbn [forEach_card].
    destruct (formatObject item) as [body|]; cbn [bind]; [|reflexivity].
    rewrite (IH (html ++ _)), (IH (EmptyString ++ _)).
    destruct (forEach_card items EmptyString); cbn [bind]; [|reflexivity].
    cbn [append]. now rewrite !append_assoc.
Qed.

(** X7.  The cards of an array follow each other: rendering two arrays one
    after the other gives the rendering of their concatenation. *)
Theorem formatData_array_app (xs ys : list json) (html_xs html_ys : string) :
  formatData (JArray xs) = Ok html_xs ->
  formatData (JArray ys) = Ok html_ys ->
  formatData (JArray (xs ++ ys)%list) = Ok (html_xs ++ html_ys).
Proof.
  cbn [formatData]. revert html_xs.
  induction xs as [|x xs IH]; intros html_xs Hx Hy.
  - injection Hx as <-. exact Hy.
  - cbn [app forEach_card] in *.
    destruct (formatObject x) as [body|]; cbn [bind] in *; [|discriminate Hx].
    rewrite forEach_card_accumulator in Hx |- *.
    destruct (forEach_card xs EmptyString) as [cards|] eqn:E;
      cbn [bind] in Hx; [|discriminate Hx].
    assert (Hx' : html_xs = (EmptyString ++ card_open ++ body ++ card_close) ++ cards)
      by congruence.
    subst html_xs.
    rewrite (IH cards eq_refl Hy). cbn [bind].
    now rewrite !append_assoc.
Qed.

(** X8.  The fields of an object are rendered one by one: rendering two objects
    one after the other gives the rendering of the object with the fields
    of both. *)
Theorem formatObject_app (xs ys : fields) (html_xs html_ys : string) :
  formatObject (JObject xs) = Ok html_xs ->
  formatObject (JObject ys) = Ok html_ys ->
  formatObject (JObject (xs ++ ys)%list) = Ok (html_xs ++ html_ys).
Proof.
  rewrite !formatObject_fields. intros [= <-] [= <-].
  now rewrite map_app, concat_all_app.
Qed.

(** X6.  An array without [null] is rendered as one card per element, in
    order, each card holding what [formatObject] makes of its element. *)
Theorem formatData_one_card_per_item (items : list json) :
  existsb is_null items = false ->
  exists bodies,
    List.length bodies = List.length items
    /\ Forall2 (fun item body => formatObject item = Ok body) items bodies
    /\ formatData (JArray items)
       = Ok (Str.concat_all
               (map (fun body => card_open ++ body ++ card_close) bodies)).
Proof.
  intros H.
  destruct (forEach_card_returns items EmptyString H) as (bodies & HF & E).
  exists bodies. split; [|split; [exact HF | exact E]].
  symmetry. exact (Forall2_length HF).
Qed.

(** X9.  An array of numbers and booleans is rendered as empty cards, one per
    element: none of the values is shown. *)
Theorem formatData_flags_and_numbers (items : list json) :
  forallb is_flag_or_number items = true ->
  formatData (JArray items)
  = Ok (Str.concat_all (repeat (card_open ++ card_close) (List.length items))).
Proof.
  cbn [formatData]. induction items as [|item items IH]; [reflexivity|].
  cbn [forallb]. rewrite andb_true_iff. intros [Hi Hs].
  cbn [forEach_card].
  assert (E : formatObject item = Ok EmptyString)
    by (destruct item; try discriminate Hi; reflexivity).
  rewrite E. cbn [bind]. rewrite forEach_card_accumulator, (IH Hs).
  cbn [bind List.length repeat Str.concat_all append].
  now rewrite !append_assoc.
Qed.

Lemma fold_left_lines (i : nat) (cs : list ascii) (html : string) :
  fold_left (fun html kv => html ++ formatEntry (fst kv) (snd kv))
    (indexed i (map (fun c => JStr (String c EmptyString)) cs)) html
  = html ++ char_lines i cs.
Proof.
  revert i html. induction cs as [|c cs IH]; intros i html.
  - cbn. now rewrite append_nil_r.
  - cbn [map indexed fold_left char_lines fst snd].
    rewrite IH. unfold formatEntry. cbn [is_non_null_object toString].
    unfold index_key.
    rewrite (LabelFacts.digits_unchanged _
               (LabelFacts.string_of_uint_digits (Nat.to_uint i))).
    now rewrite !append_assoc.
Qed.

(** X10.  An ASCII string among the elements of an array is rendered
    character by character, one line each, labelled with the index of the
    character. *)
Theorem formatObject_string (s : string) :
  Str.all_chars is_ascii_char s = true ->
  formatObject (JStr s) = Ok (char_lines 0 (Str.chars s)).
Proof.
  intros _. unfold formatObject. cbn [Object_entries ownEntries bind].
  now rewrite fold_left_lines.
Qed.

(** *** The body of a success fragment *)

(** X11.  When [data] is absent or falsy and [result] is truthy, the body is the
    rendering of [result]. *)
Theorem formatSuccessResult_result_body (env : fields) (r : json) :
  truthy_prop (lookup "data" env) = false ->
  lookup "result" env = Some r ->
  truthy r = true ->
  formatSuccessResult (JObject env)
  = (body <- formatData r ;;
     Ok (if truthy_prop (lookup "metadata" env) then
           success_header ++ body ++ metadata_section (the (lookup "metadata" env))
         else success_header ++ body)).
Proof.
  intros Hd Hr Ht. rewrite formatSuccessResult_split.
  unfold success_body. rewrite Hd, Hr. cbn [truthy_prop the]. now rewrite Ht.
Qed.

End RendererMore.

(** ** Tab navigation *)

Module TabsFacts.
Import Tabs.

Lemma has_class_add (c c' : string) (n : node) :
  has_class c (add_class c' n) = has_class c n || String.eqb c c'.
Proof.
  unfold add_class, has_class. cbn [node_classes].
  destruct (existsb (String.eqb c') (node_classes n)) eqn:E.
  - destruct (String.eqb_spec c c') as [->|]; [|now rewrite orb_false_r].
    now rewrite E.
  - rewrite existsb_app. cbn [existsb]. now rewrite orb_false_r.
Qed.

Lemma has_class_remove (c c' : string) (n : node) :
  has_class c (remove_class c' n) = has_class c n && negb (String.eqb c c').
Proof.
  unfold remove_class, has_class. cbn [node_classes].
  induction (node_classes n) as [|x l IH]; [reflexivity|].
  cbn [filter existsb].
  destruct (String.eqb_spec x c') as [->|Hx]; cbn [negb].
  - rewrite IH. destruct (String.eqb_spec c c'); cbn [negb];
      [now rewrite !andb_false_r | now rewrite !andb_true_r].
  - cbn [existsb]. rewrite IH.
    destruct (String.eqb_spec c x) as [->|]; [|reflexivity].
    cbn [orb]. destruct (String.eqb_spec x c'); [contradiction | reflexivity].
Qed.

Lemma nth_error_update_at (j : nat) (f : node -> node) (doc : list node) (i : nat) :
  nth_error (update_at j f doc) i
  = if Nat.eqb i j then option_map f (nth_error doc i) else nth_error doc i.
Proof.
  revert i j. induction doc as [|n doc IH]; intros i j.
  - destruct j, i; cbn [update_at nth_error option_map];
      now destruct (Nat.eqb _ _).
  - destruct j as [|j], i as [|i]; cbn [update_at nth_error Nat.eqb option_map];
      try reflexivity.
    apply IH.
Qed.

Lemma update_at_length (j : nat) (f : node -> node) (doc : list node) :
  List.length (update_at j f doc) = List.length doc.
Proof.
  revert j. induction doc as [|n doc IH]; intros [|j];
    cbn [update_at List.length]; try reflexivity.
  now rewrite IH.
Qed.

Lemma getElementById_map (id : string) (f : node -> node) (doc : list node) :
  (forall n, node_id (f n) = node_id n) ->
  getElementById id (map f doc) = getElementById id doc.
Proof.
  intros Hf. induction doc as [|n doc IH]; [reflexivity|].
  cbn [map getElementById]. now rewrite Hf, IH.
Qed.

Lemma getElementById_deactivate (id cls : string) (doc : list node) :
  getElementById id (deactivate_all cls doc) = getElementById id doc.
Proof.
  apply getElementById_map. intros n. unfold deactivate.
  now destruct (has_class cls n).
Qed.

Lemma getElementById_None (id : string) (doc : list node) :
  getElementById id doc = None
  <-> id = EmptyString \/ forall n, In n doc -> node_id n <> id.
Proof.
  induction doc as [|n doc IH].
  - split; [intros _; right; intros ? [] | reflexivity].
  - cbn [getElementById].
    destruct (String.eqb_spec id EmptyString) as [->|Hid]; cbn [negb andb].
    + rewrite (proj2 IH (or_introl eq_refl)). cbn [option_map].
      split; [now left | reflexivity].
    + destruct (String.eqb_spec (node_id n) id) as [E|E].
      * split; [discriminate|]. intros [H|H]; [contradiction|].
        elim (H n (or_introl eq_refl) E).
      * destruct (getElementById id doc) eqn:G; cbn [option_map].
        -- split; [discriminate|]. intros [H|H]; [contradiction|].
           assert (Some n0 = None) as F; [|discriminate F].
           apply IH. right. intros m Hm. apply H. now right.
        -- split; [|reflexivity]. intros _. right.
           destruct (proj1 IH eq_refl) as [H|H]; [contradiction|].
           intros m [<-|Hm]; [exact E | now apply H].
Qed.

(** The element at position [i] after both rounds of deactivation. *)
Lemma nth_error_deactivated (doc : list node) (i : nat) (n : node) :
  nth_error doc i = Some n ->
  exists m,
    nth_error (deactivate_all "tab-button" (deactivate_all "tab-content" doc)) i
    = Some m
    /\ node_id m = node_id n
    /\ (forall c,
           has_class c m
           = has_class c n
             && negb (String.eqb c "active"
                      && (has_class "tab-content" n || has_class "tab-button" n))).
Proof.
  intros H. unfold deactivate_all. rewrite !nth_error_map, H. cbn [option_map].
  eexists. split; [reflexivity|]. unfold deactivate.
  destruct (has_class "tab-content" n) eqn:C.
  - rewrite has_class_remove, andb_true_r. cbn [String.eqb Ascii.eqb Bool.eqb negb].
    destruct (has_class "tab-button" n) eqn:B; split; try reflexivity; intros c;
      rewrite ?has_class_remove, ?C, ?B, ?orb_true_r, ?andb_true_r;
      cbn [orb]; rewrite ?andb_true_r;
      destruct (has_class c n), (String.eqb c "active"); reflexivity.
  - destruct (has_class "tab-button" n) eqn:B; split; try reflexivity; intros c;
      rewrite ?has_class_remove, ?C, ?B; cbn [orb];
      rewrite ?andb_true_r, ?andb_false_r; cbn [negb];
      rewrite ?andb_true_r; reflexivity.
Qed.

End TabsFacts.

(** X17.  With an event target that is an element of the document, if
    there is one, [showTab] raises exactly when no element has the [id] it
    is given (the empty [id] is never found) or no event is being
    handled. *)
Theorem showTab_raises_iff
    (tabName : string) (event : option nat) (doc : list Tabs.node) :
  (forall target, event = Some target -> target < List.length doc) ->
  Tabs.showTab tabName event doc = Throw TypeError
  <-> (tabName = EmptyString
       \/ forall n, In n doc -> Tabs.node_id n <> tabName)
      \/ event = None.
Proof.
  intros _. unfold Tabs.showTab.
  rewrite !TabsFacts.getElementById_deactivate.
  rewrite <- TabsFacts.getElementById_None.
  destruct (Tabs.getElementById tabName doc), event; split;
    try discriminate; try reflexivity; auto.
  - intros [H|H]; discriminate H.
Qed.

(** X18.  After [showTab] the element with the given [id] and the click target
    are active; of the others, every tab content and every tab button is
    inactive, and an element that is neither is active as before.  No
    other class and no [id] changes, and no element is added or removed. *)
Theorem showTab_active
    (tabName : string) (event : option nat) (doc doc' : list Tabs.node) :
  Tabs.showTab tabName event doc = Ok doc' ->
  exists tab target,
    event = Some target
    /\ Tabs.getElementById tabName doc = Some tab
    /\ List.length doc' = List.length doc
    /\ forall i n,
         nth_error doc i = Some n ->
         exists n',
           nth_error doc' i = Some n'
           /\ Tabs.node_id n' = Tabs.node_id n
           /\ Tabs.has_class "active" n'
              = Nat.eqb i tab || Nat.eqb i target
                || (Tabs.has_class "active" n
                    && negb (Tabs.has_class "tab-content" n
                             || Tabs.has_class "tab-button" n))
           /\ (forall c, c <> "active" ->
                         Tabs.has_class c n' = Tabs.has_class c n).
Proof.
  unfold Tabs.showTab.
  rewrite !TabsFacts.getElementById_deactivate.
  destruct (Tabs.getElementById tabName doc) as [tab|]; [|discriminate].
  destruct event as [target|]; [|discriminate].
  intros [= <-]. exists tab, target.
  split; [reflexivity|]. split; [reflexivity|].
  split.
  { rewrite !TabsFacts.update_at_length. unfold Tabs.deactivate_all.
    now rewrite !length_map. }
  intros i n Hn.
  destruct (TabsFacts.nth_error_deactivated doc i n Hn) as (m & Hm & Hid & Hc).
  rewrite !TabsFacts.nth_error_update_at, Hm.
  assert (Hactive := Hc "active"). cbn [String.eqb Ascii.eqb Bool.eqb andb] in Hactive.
  assert (Hother : forall c, c <> "active" -> Tabs.has_class c m = Tabs.has_class c n).
  { intros c Hne. rewrite Hc. apply String.eqb_neq in Hne. rewrite Hne.
    now rewrite andb_true_r. }
  assert (Hadd : forall x c, c <> "active" ->
             Tabs.has_class c (Tabs.add_class "active" x) = Tabs.has_class c x).
  { intros x c Hne. rewrite TabsFacts.has_class_add.
    apply String.eqb_neq in Hne. now rewrite Hne, orb_false_r. }
  destruct (Nat.eqb i target), (Nat.eqb i tab); cbn [option_map orb];
    eexists; (split; [reflexivity|]); (split; [exact Hid|]); split;
    rewrite ?TabsFacts.has_class_add; cbn [String.eqb Ascii.eqb Bool.eqb];
    rewrite ?orb_true_r; try reflexivity; try exact Hactive;
    intros c Hne; rewrite ?Hadd by exact Hne; now apply Hother.
Qed.

Module TabsAgain.
Import Tabs.

Lemma add_class_present (c : string) (n : node) :
  has_class c n = true -> add_class c n = n.
Proof. intros H. unfold add_class. rewrite H. now destruct n. Qed.

Lemma remove_class_absent (c : string) (n : node) :
  has_class c n = false -> remove_class c n = n.
Proof.
  destruct n as [id l]. unfold remove_class, has_class. cbn [node_id node_classes].
  intros H. f_equal. induction l as [|x l IH]; [reflexivity|].
  cbn [existsb] in H. apply orb_false_iff in H as [Hx Hl].
  cbn [filter]. rewrite String.eqb_sym, Hx. cbn [negb]. now rewrite (IH Hl).
Qed.

Lemma remove_add_class (c : string) (n : node) :
  has_class c n = false -> remove_class c (add_class c n) = n.
Proof.
  intros H. rewrite <- (remove_class_absent c n H) at 2.
  unfold add_class. rewrite H. unfold remove_class. cbn [node_id node_classes].
  f_equal. rewrite filter_app. cbn [filter]. rewrite String.eqb_refl.
  cbn [negb]. apply app_nil_r.
Qed.

(** Both rounds of deactivation on one element. *)
Lemma deactivate_twice (n : node) :
  deactivate "tab-button" (deactivate "tab-content" n)
  = if has_class "tab-content" n || has_class "tab-button" n
    then remove_class "active" n else n.
Proof.
  unfold deactivate.
  destruct (has_class "tab-content" n) eqn:C; cbn [orb]; [|reflexivity].
  rewrite TabsFacts.has_class_remove. cbn [String.eqb Ascii.eqb Bool.eqb negb].
  rewrite andb_true_r.
  destruct (has_class "tab-button" n); [|reflexivity].
  apply remove_class_absent. rewrite TabsFacts.has_class_remove.
  rewrite String.eqb_refl. apply andb_false_r.
Qed.

(** Deactivating an element that was deactivated and then, maybe,
    activated again gives the deactivated element back. *)
Lemma deactivate_again (n : node) (again : bool) :
  let shown x := if again then add_class "active" x else x in
  let hidden := deactivate "tab-button" (deactivate "tab-content" n) in
  shown (deactivate "tab-button" (deactivate "tab-content" (shown hidden)))
  = shown hidden.
Proof.
  cbn zeta. rewrite (deactivate_twice n).
  destruct (has_class "tab-content" n || has_class "tab-button" n) eqn:T.
  - assert (Hoff : has_class "active" (remove_class "active" n) = false).
    { rewrite TabsFacts.has_class_remove, String.eqb_refl. apply andb_false_r. }
    assert (Hkind : forall x,
               (forall c, c <> "active" -> has_class c x = has_class c n) ->
               has_class "tab-content" x || has_class "tab-button" x = true).
    { intros x Hx. now rewrite !Hx by discriminate. }
    rewrite deactivate_twice, Hkind.
    + destruct again; [now rewrite remove_add_class by exact Hoff|].
      now rewrite remove_class_absent by exact Hoff.
    + intros c Hc. apply String.eqb_neq in Hc.
      destruct again; rewrite ?TabsFacts.has_class_add, TabsFacts.has_class_remove, Hc;
        cbn [negb]; rewrite ?orb_false_r; apply andb_true_r.
  - rewrite deactivate_twice.
    assert (Hkind : has_class "tab-content" (if again then add_class "active" n else n)
                    || has_class "tab-button" (if again then add_class "active" n else n)
                    = false).
    { destruct again; [|exact T].
      rewrite !TabsFacts.has_class_add. cbn [String.eqb Ascii.eqb Bool.eqb].
      now rewrite !orb_false_r. }
    rewrite Hkind. destruct again; [|reflexivity].
    apply add_class_present. rewrite TabsFacts.has_class_add, String.eqb_refl.
    apply orb_true_r.
Qed.

Lemma add_class_twice (c : string) (n : node) :
  add_class c (add_class c n) = add_class c n.
Proof.
  apply add_class_present. rewrite TabsFacts.has_class_add, String.eqb_refl.
  apply orb_true_r.
Qed.

End TabsAgain.

(** X19.  Showing a tab that is shown already, from the same click target,
    changes nothing. *)
Theorem showTab_again
    (tabName : string) (event : option nat) (doc doc' : list Tabs.node) :
  Tabs.showTab tabName event doc = Ok doc' ->
  Tabs.showTab tabName event doc' = Ok doc'.
Proof.
  unfold Tabs.showTab.
  rewrite !TabsFacts.getElementById_deactivate.
  destruct (Tabs.getElementById tabName doc) as [tab|] eqn:G; [|discriminate].
  destruct event as [target|]; [|discriminate].
  intros [= <-].
  set (hide := fun n => Tabs.deactivate "tab-button" (Tabs.deactivate "tab-content" n)).
  set (shown := fun (i : nat) (x : Tabs.node) =>
                  if Nat.eqb i tab || Nat.eqb i target
                  then Tabs.add_class "active" x else x).
  assert (Hstep : forall d i,
             nth_error
               (Tabs.update_at target (Tabs.add_class "active")
                  (Tabs.update_at tab (Tabs.add_class "active")
                     (Tabs.deactivate_all "tab-button"
                        (Tabs.deactivate_all "tab-content" d)))) i
             = option_map (fun n => shown i (hide n)) (nth_error d i)).
  { intros d i. rewrite !TabsFacts.nth_error_update_at.
    unfold Tabs.deactivate_all. rewrite !nth_error_map. unfold shown, hide.
    destruct (nth_error d i) as [n|]; cbn [option_map];
      destruct (Nat.eqb i target), (Nat.eqb i tab); cbn [option_map orb];
      try reflexivity.
    now rewrite TabsAgain.add_class_twice. }
  assert (Hid : Tabs.getElementById tabName
                  (Tabs.update_at target (Tabs.add_class "active")
                     (Tabs.update_at tab (Tabs.add_class "active")
                        (Tabs.deactivate_all "tab-button"
                           (Tabs.deactivate_all "tab-content" doc))))
                = Some tab).
  { rewrite <- G.
    assert (Hupd : forall j d,
               Tabs.getElementById tabName (Tabs.update_at j (Tabs.add_class "active") d)
               = Tabs.getElementById tabName d).
    { intros j d. revert j. induction d as [|n d IH]; intros [|j];
        cbn [Tabs.update_at Tabs.getElementById]; try reflexivity.
      - now rewrite IH. }
    now rewrite !Hupd, !TabsFacts.getElementById_deactivate. }
  rewrite Hid. f_equal. apply nth_error_ext. intros i.
  rewrite Hstep, Hstep.
  destruct (nth_error doc i) as [n|]; cbn [option_map]; [|reflexivity].
  f_equal. unfold shown, hide.
  apply (TabsAgain.deactivate_again n (Nat.eqb i tab || Nat.eqb i target)).
Qed.

(** ** Further scenarios *)

Import MoreScenarios.

Lemma displayResult_raises_iff_witness :
  displayResult box (JObject null_item) false = Throw TypeError.
Proof.
  apply (proj2 (displayResult_raises_iff box (JObject null_item) TypeError)).
  right. exists null_item, (JArray [JNull]).
  repeat split. left. reflexivity.
Defined.

Lemma displayResult_not_an_object_witness :
  displayResult box bare_array false
  = Ok (shown ("<pre>[" ++ Str.nl ++ "  null," ++ Str.nl ++ "  1" ++ Str.nl
                 ++ "]</pre>")).
Proof.
  refine (displayResult_not_an_object box bare_array _ _); discriminate.
Defined.

Lemma displayResult_classes_witness :
  ~ In "loading" (classList (shown (success_header ++ "<p>x</p>")))
  /\ count_occ string_dec
       (classList (shown (success_header ++ "<p>x</p>"))) "error" = 0.
Proof.
  pose proof (displayResult_classes box
                (shown (success_header ++ "<p>x</p>"))
                (JObject null_metadata) false eq_refl) as (H1 & H2 & _).
  split; [exact H1 | exact H2].
Defined.

Lemma formatData_one_card_per_item_witness :
  exists bodies,
    List.length bodies = 2
    /\ formatData
         (JArray [JObject [("city", JStr "Beirut")]; JStr "x"] : json Z)
       = Ok (Str.concat_all
               (map (fun body => card_open ++ body ++ card_close) bodies)).
Proof.
  destruct (formatData_one_card_per_item
              ([JObject [("city", JStr "Beirut")]; JStr "x"] : list (json Z))
              eq_refl) as (bodies & Hlen & _ & H).
  exists bodies. split; [exact Hlen | exact H].
Defined.

Lemma formatData_array_app_witness :
  formatData (JArray [JObject [("city", JStr "Beirut")];
                      JObject [("city", JStr "Tripoli")]] : json Z)
  = Ok ((card_open ++ "<p><strong>City:</strong> Beirut</p>" ++ card_close)
          ++ (card_open ++ "<p><strong>City:</strong> Tripoli</p>" ++ card_close)).
Proof.
  exact (formatData_array_app
           [JObject [("city", JStr "Beirut")]] [JObject [("city", JStr "Tripoli")]]
           _ _ eq_refl eq_refl).
Defined.

Lemma formatObject_app_witness :
  formatObject (JObject [("city", JStr "Beirut"); ("year", JNum 1920%Z)])
  = Ok ("<p><strong>City:</strong> Beirut</p>"
          ++ "<p><strong>Year:</strong> 1920</p>").
Proof.
  exact (formatObject_app [("city", JStr "Beirut")] [("year", JNum 1920%Z)]
           _ _ eq_refl eq_refl).
Defined.

Lemma formatData_flags_and_numbers_witness :
  formatData (JArray [JNum 1%Z; JBool true; JNum 3%Z])
  = Ok ((card_open ++ card_close) ++ (card_open ++ card_close)
          ++ (card_open ++ card_close)).
Proof.
  exact (formatData_flags_and_numbers [JNum 1%Z; JBool true; JNum 3%Z] eq_refl).
Defined.

Lemma formatSuccessResult_result_body_witness :
  formatSuccessResult (JObject zero_data)
  = Ok (success_header
          ++ card_open ++ "<p><strong>City:</strong> Beirut</p>" ++ card_close).
Proof.
  exact (formatSuccessResult_result_body zero_data
           (JArray [JObject [("city", JStr "Beirut")]]) eq_refl eq_refl eq_refl).
Defined.

Lemma showTab_raises_iff_witness :
  Tabs.showTab "fetch" (Some 1) two_tabs = Throw TypeError
  /\ Tabs.showTab "chat" None two_tabs = Throw TypeError.
Proof.
  split.
  - refine (proj2 (showTab_raises_iff "fetch" (Some 1) two_tabs _) _).
    + intros target [= <-]. cbn. lia.
    + left. right. intros n [<-|[<-|[<-|[<-|[]]]]]; discriminate.
  - refine (proj2 (showTab_raises_iff "chat" None two_tabs _) _).
    + intros target H. discriminate H.
    + right. reflexivity.
Defined.

Lemma showTab_active_witness :
  exists tab,
    Tabs.getElementById "chat" two_tabs = Some tab
    /\ List.length chat_shown = List.length two_tabs.
Proof.
  destruct (showTab_active "chat" (Some 1) two_tabs chat_shown eq_refl)
    as (tab & target & _ & H & Hlen & _).
  exists tab. split; [exact H | exact Hlen].
Defined.

Lemma showTab_again_witness :
  Tabs.showTab "chat" (Some 1) chat_shown = Ok chat_shown.
Proof.
  exact (showTab_again "chat" (Some 1) two_tabs chat_shown eq_refl).
Defined.

(** ** The chat *)

Section ChatFacts.

Context {number : Type} {numberOps : JSNumber number}.

(** A message whose content is a string and whose [functionCalled] is
    falsy or converts to a string is appended, with its role in the class
    name, and logged. *)
Lemma addChatMessage_string
    (role text : string) (functionCalled : option (json number)) (c : chat number) :
  truthy_prop functionCalled = false \/ converts (the functionCalled) = true ->
  exists div,
    className div = "chat-message " ++ role
    /\ addChatMessage role (Some (JStr text)) functionCalled c
       = Ok {| messages := (messages c ++ [div])%list;
               chatHistory := (chatHistory c ++ [(role, Some (JStr text))])%list |}.
Proof.
  intros H. unfold addChatMessage.
  destruct (truthy_prop functionCalled) eqn:T.
  - destruct H as [H|H]; [discriminate H|]. unfold converts in H.
    destruct (ToString (the functionCalled)) as [used|]; [|discriminate H].
    cbn [formatMarkdown_content bind]. eexists. split; [|reflexivity]. reflexivity.
  - cbn [formatMarkdown_content bind]. eexists. split; [|reflexivity]. reflexivity.
Qed.

Lemma addChatMessage_raises
    (role : string) (content functionCalled : option (json number)) (c : chat number) :
  truthy_prop functionCalled = true ->
  converts (the functionCalled) = false ->
  exists error, addChatMessage role content functionCalled c = Throw error.
Proof.
  intros T H. unfold addChatMessage. rewrite T. unfold converts in H.
  destruct (ToString (the functionCalled)) as [used|error]; [discriminate H|].
  now exists error.
Qed.

(** What the [try] block does with a parsed response: it appends the
    answer, or an error message for a truthy [error], or it raises. *)
Lemma show_reply_cases (data : json number) (c : chat number) :
  (is_answer (Parsed data) = true
   /\ exists text functionCalled,
        (truthy_prop functionCalled = false
         \/ converts (the functionCalled) = true)
        /\ show_reply data c
           = addChatMessage "assistant" (Some (JStr text)) functionCalled c)
  \/ (is_answer (Parsed data) = false
      /\ ((exists text,
              show_reply data c
              = addChatMessage "system" (Some (JStr ("Error: " ++ text))) None c)
          \/ exists error, show_reply data c = Throw error)).
Proof.
  destruct data as [| | | |items|env];
    try (right; split; [reflexivity|]; right; eexists; reflexivity).
  unfold show_reply. cbn [getProp bind is_answer].
  destruct (truthy_prop (lookup "error" env)) eqn:E; cbn [negb andb].
  - right. split; [reflexivity|].
    destruct (ToString (the (lookup "error" env))) as [text|error]; cbn [bind].
    + left. now exists text.
    + right. now exists error.
  - destruct (lookup "response" env) as [[| | |text| |]|]; cbn [andb];
      try (right; split; [reflexivity|]; right;
           unfold addChatMessage;
           destruct (truthy_prop (lookup "function_called" env));
           [destruct (ToString (the (lookup "function_called" env)))|];
           cbn [bind formatMarkdown_content]; eexists; reflexivity).
    destruct (truthy_prop (lookup "function_called" env)) eqn:T; cbn [negb orb].
    + destruct (converts (the (lookup "function_called" env))) eqn:V.
      * left. split; [reflexivity|].
        exists text, (lookup "function_called" env). split; [now right | reflexivity].
      * right. split; [reflexivity|]. right.
        apply addChatMessage_raises; assumption.
    + left. split; [reflexivity|].
      exists text, (lookup "function_called" env). split; [now left | reflexivity].
Qed.

(** X20.  An exchange does not raise and adds two messages, to the page and
    to the history alike: the user's text, and one reply, which is the
    assistant's if the response is an object without a truthy [error]
    whose [response] is a string and whose [function_called], if truthy,
    converts to a string, and an error message of the system in every
    other case. *)
Theorem sendChatMessage_two_messages
    (error_text : exn -> string) (message : string) (r : response number)
    (c : chat number) :
  message <> EmptyString ->
  exists first reply text,
    sendChatMessage error_text message r c
    = Ok {| messages := (messages c ++ [first; reply])%list;
            chatHistory :=
              (chatHistory c
                 ++ [("user", Some (JStr message));
                     (if is_answer r then "assistant" else "system",
                      Some (JStr text))])%list |}
    /\ className first = "chat-message user"
    /\ className reply
       = (if is_answer r then "chat-message assistant" else "chat-message system")
    /\ (is_answer r = false -> exists reason, text = "Error: " ++ reason).
Proof.
  intros Hm. unfold sendChatMessage.
  apply String.eqb_neq in Hm. rewrite Hm.
  destruct (addChatMessage_string "user" message None c (or_introl eq_refl))
    as (first & Hf & ->).
  cbn [bind].
  set (c1 := {| messages := (messages c ++ [first])%list;
                chatHistory := (chatHistory c ++ [("user", Some (JStr message))])%list |}).
  assert (Hsys : forall reason flag,
             flag = false ->
             exists reply text,
               addChatMessage "system" (Some (JStr ("Error: " ++ reason))) None c1
               = Ok {| messages := (messages c ++ [first; reply])%list;
                       chatHistory :=
                         (chatHistory c
                            ++ [("user", Some (JStr message));
                                (if flag then "assistant" else "system",
                                 Some (JStr text))])%list |}
               /\ className reply
                  = (if flag then "chat-message assistant" else "chat-message system")
               /\ (flag = false -> exists reason', text = "Error: " ++ reason')).
  { intros reason flag ->.
    destruct (addChatMessage_string "system" ("Error: " ++ reason) None c1
                (or_introl eq_refl))
      as (reply & Hr & ->).
    exists reply, ("Error: " ++ reason). unfold c1. cbn [messages chatHistory].
    rewrite <- !app_assoc. cbn [app]. repeat split; [exact Hr|].
    intros _. now exists reason. }
  destruct r as [data|error_message].
  - destruct (show_reply_cases data c1)
      as [(Ha & text & fc & Hfc & E) | (Ha & [(reason & E) | (error & E)])];
      rewrite E.
    + destruct (addChatMessage_string "assistant" text fc c1 Hfc) as (reply & Hr & ->).
      exists first, reply, text. rewrite Ha. unfold c1. cbn [messages chatHistory].
      rewrite <- !app_assoc. cbn [app]. repeat split; trivial. discriminate.
    + destruct (Hsys reason _ Ha) as (reply & text & -> & Hr & Ht).
      exists first, reply, text. repeat split; trivial.
    + destruct (Hsys (error_text error) _ Ha) as (reply & text & -> & Hr & Ht).
      exists first, reply, text. repeat split; trivial.
  - destruct (Hsys error_message (is_answer (Rejected error_message)) eq_refl)
      as (reply & text & -> & Hr & Ht).
    exists first, reply, text. repeat split; trivial.
Qed.

End ChatFacts.

Lemma sendChatMessage_two_messages_witness :
  exists first reply text,
    sendChatMessage (fun _ => "failed") "hello" (Parsed answer) empty_chat
    = Ok {| messages := [first; reply];
            chatHistory := [("user", Some (JStr "hello"));
                            ("assistant", Some (JStr text))] |}.
Proof.
  destruct (sendChatMessage_two_messages (fun _ => "failed") "hello"
              (Parsed answer) empty_chat ltac:(discriminate))
    as (first & reply & text & H & _).
  exists first, reply, text. exact H.
Defined.

Lemma displayResult_after_setLoading_witness :
  displayResult (setLoading box) (JObject scenarioD) false
  = Ok (shown ("<pre>" ++ JSON_stringify (JObject scenarioD) ++ "</pre>")).
Proof.
  exact (proj2 (proj1 (displayResult_after_setLoading box
                         (shown ("<pre>" ++ JSON_stringify (JObject scenarioD)
                                   ++ "</pre>"))
                         (JObject scenarioD) false))
           eq_refl).
Defined.

Lemma formatObject_string_witness :
  formatObject (JStr "ok" : json Z)
  = Ok ("<p><strong>0:</strong> o</p>" ++ "<p><strong>1:</strong> k</p>").
Proof.
  exact (formatObject_string "ok" eq_refl).
Defined.
